(** * NFT Patent Marketplace Quiz: a shallow embedding of [nft_project_quiz.py]

    The program is one class, [NFTProjectQuiz], with a constructor that
    builds the question bank and a method [run_quiz] that prints a banner,
    picks one question with [random.choice], reads an answer from standard
    input until it is "1" or "2", and prints the verdict.

    Python text ([str]) is a sequence of Unicode code points, so it is
    modelled as [list N]; a literal between double quotes stands for the
    code points of its UTF-8 bytes.  Console effects, exceptions and the
    random source are threaded through a small state-and-exception monad. *)

From Stdlib Require Import String Ascii DecimalString.
From Stdlib Require Import Strings.Byte.
From Stdlib Require Import List ZArith NArith Bool Lia.
Import ListNotations.

Set Implicit Arguments.

(** ** The fragment of Python the program uses *)

Module Py.

(** *** Text *)

Definition str := list N.

(** UTF-8 decoding of a literal into code points.  A truncated sequence
    ends the text; the literals of the program are well formed. *)
Fixpoint decode (bs : list N) : str :=
  match bs with
  | [] => []
  | b :: r =>
      if (b <? 0x80)%N then b :: decode r
      else if (b <? 0xE0)%N then
        match r with
        | c1 :: r1 => ((b - 0xC0) * 64 + (c1 - 0x80))%N :: decode r1
        | _ => []
        end
      else if (b <? 0xF0)%N then
        match r with
        | c1 :: c2 :: r2 =>
            ((b - 0xE0) * 4096 + (c1 - 0x80) * 64 + (c2 - 0x80))%N :: decode r2
        | _ => []
        end
      else
        match r with
        | c1 :: c2 :: c3 :: r3 =>
            ((b - 0xF0) * 262144 + (c1 - 0x80) * 4096
             + (c2 - 0x80) * 64 + (c3 - 0x80))%N :: decode r3
        | _ => []
        end
  end.

(** Text literals: ["abc"] is read as the list of its code points. *)
Inductive literal : Set :=
| lit_nil
| lit_cons (c : N) (r : literal).

Fixpoint literal_of (s : str) : literal :=
  match s with
  | [] => lit_nil
  | c :: r => lit_cons c (literal_of r)
  end.

Definition of_bytes (bs : list byte) : literal := literal_of (decode (map Byte.to_N bs)).
Definition to_bytes (s : literal) : option (list byte) := None.

Declare Scope py_scope.
Delimit Scope py_scope with py.

#[warnings="-via-type-mismatch,-via-type-remapping"]
String Notation str of_bytes to_bytes
  (via literal mapping [[nil] => lit_nil, [cons] => lit_cons]) : py_scope.

(** "\n" *)
Definition nl : str := [10%N].

(** [s * n] *)
Definition str_mul (s : str) (n : nat) : str := concat (repeat s n).

(** [a == b] *)
Fixpoint str_eqb (a b : str) : bool :=
  match a, b with
  | [], [] => true
  | x :: a', y :: b' => (x =? y)%N && str_eqb a' b'
  | _, _ => false
  end.

(** [x in seq] for a list of strings *)
Definition str_in (x : str) (seq : list str) : bool := existsb (str_eqb x) seq.

(** [s.startswith(prefix)] *)
Fixpoint startswith (s prefix : str) : bool :=
  match prefix, s with
  | [], _ => true
  | c :: prefix', d :: s' => (c =? d)%N && startswith s' prefix'
  | _ :: _, [] => false
  end.

(** [sub in s] *)
Fixpoint contains (s sub : str) : bool :=
  startswith s sub
  || match s with
     | [] => false
     | _ :: s' => contains s' sub
     end.

(** [str.isspace] on one code point: the code points CPython classifies as
    whitespace. *)
Definition isspace (c : N) : bool :=
  ((0x09 <=? c) && (c <=? 0x0D)
   || (0x1C <=? c) && (c <=? 0x20)
   || (c =? 0x85) || (c =? 0xA0) || (c =? 0x1680)
   || (0x2000 <=? c) && (c <=? 0x200A)
   || (c =? 0x2028) || (c =? 0x2029) || (c =? 0x202F)
   || (c =? 0x205F) || (c =? 0x3000))%N.

Fixpoint lstrip (s : str) : str :=
  match s with
  | [] => []
  | c :: r => if isspace c then lstrip r else s
  end.

Definition rstrip (s : str) : str := rev (lstrip (rev s)).

(** [s.strip()] *)
Definition strip (s : str) : str := rstrip (lstrip s).

(** [str(i)] for an integer: the characters of its decimal writing *)
Fixpoint code_points (s : string) : str :=
  match s with
  | EmptyString => []
  | String a r => N_of_ascii a :: code_points r
  end.

Definition str_of_int (i : Z) : str := code_points (NilZero.string_of_int (Z.to_int i)).

(** *** Exceptions *)

Inductive exn : Type :=
| ValueError
| KeyboardInterrupt
| EOFError
| IndexError
| SystemExit (code : Z).

(** *** Sequences *)

(** [seq[i]]: a negative index counts from the end, an index out of range
    raises [IndexError]. *)
Definition getitem {A : Type} (seq : list A) (i : Z) : option A :=
  let n := Z.of_nat (length seq) in
  if (0 <=? i)%Z then nth_error seq (Z.to_nat i)
  else if (- n <=? i)%Z then nth_error seq (Z.to_nat (n + i))
  else None.

(** [enumerate(seq, start)] *)
Fixpoint enumerate {A : Type} (seq : list A) (start : Z) : list (Z * A) :=
  match seq with
  | [] => []
  | x :: r => (start, x) :: enumerate r (start + 1)
  end.

(** *** [int(s)] on text, base 10

    Surrounding whitespace is dropped, one sign is allowed, and the digits
    may be separated by single underscores.  Only the ASCII digits are
    modelled; anything else is rejected with [ValueError]. *)

Definition digit (c : N) : option Z :=
  if ((0x30 <=? c) && (c <=? 0x39))%N then Some (Z.of_N c - 48)%Z else None.

Fixpoint int_digits (acc : Z) (after_digit : bool) (s : str) : option Z :=
  match s with
  | [] => if after_digit then Some acc else None
  | c :: r =>
      if (c =? 0x5F)%N then
        if after_digit then int_digits acc false r else None
      else
        match digit c with
        | Some d => int_digits (10 * acc + d) true r
        | None => None
        end
  end.

Definition int_parse (s : str) : option Z :=
  match strip s with
  | 0x2D%N :: r => option_map Z.opp (int_digits 0 false r)
  | 0x2B%N :: r => int_digits 0 false r
  | r => int_digits 0 false r
  end.

(** *** The console, the random source and control flow

    One call of [input()] meets either a line typed by the user (without its
    newline) or an interrupt; when the stream is exhausted it meets the end
    of input.  The random source is a natural number from which
    [_randbelow n] takes a digit in base [n].  What was written before an
    exception is raised stays written. *)

Inductive event : Type :=
| Line (s : str)
| Interrupt.

Inductive result (A : Type) : Type :=
| Val (a : A)
| Exc (e : exn)
| OutOfFuel.

Arguments Exc {A} e.
Arguments OutOfFuel {A}.

Section Effects.

Variable Obj : Type.

Record world : Type := World {
  self : Obj;
  random_state : nat;
  stdin : list event;
  stdout : str
}.

Definition M (A : Type) : Type := world -> result A * world.

Definition ret {A : Type} (a : A) : M A := fun w => (Val a, w).

Definition bind {A B : Type} (c : M A) (k : A -> M B) : M B :=
  fun w =>
    match c w with
    | (Val a, w') => k a w'
    | (Exc e, w') => (Exc e, w')
    | (OutOfFuel, w') => (OutOfFuel, w')
    end.

Definition raise {A : Type} (e : exn) : M A := fun w => (Exc e, w).

(** [try: body except catches: handler] *)
Definition try_except {A : Type} (body : M A) (catches : exn -> bool) (handler : M A) : M A :=
  fun w =>
    match body w with
    | (Exc e, w') => if catches e then handler w' else (Exc e, w')
    | r => r
    end.

Definition get_self : M Obj := fun w => (Val (self w), w).

Definition write (s : str) : M unit :=
  fun w => (Val tt, World (self w) (random_state w) (stdin w) (stdout w ++ s)).

(** [print(s)] *)
Definition print (s : str) : M unit := write (s ++ nl).

Definition readline : M str :=
  fun w =>
    match stdin w with
    | [] => (Exc EOFError, w)
    | Line s :: r => (Val s, World (self w) (random_state w) r (stdout w))
    | Interrupt :: r => (Exc KeyboardInterrupt, World (self w) (random_state w) r (stdout w))
    end.

(** [input(prompt)]: the prompt is written, then a line is read. *)
Definition input (prompt : str) : M str := bind (write prompt) (fun _ => readline).

Definition int (s : str) : M Z :=
  match int_parse s with
  | Some z => ret z
  | None => raise ValueError
  end.

Definition subscript {A : Type} (seq : list A) (i : Z) : M A :=
  match getitem seq i with
  | Some x => ret x
  | None => raise IndexError
  end.

Definition randbelow (n : nat) : M nat :=
  fun w => (Val (random_state w mod n),
            World (self w) (random_state w / n) (stdin w) (stdout w)).

(** [random.choice(seq)] *)
Definition choice {A : Type} (seq : list A) : M A :=
  match seq with
  | [] => raise IndexError
  | _ => bind (randbelow (length seq)) (fun i => subscript seq (Z.of_nat i))
  end.

(** [sys.exit(code)] *)
Definition sys_exit {A : Type} (code : Z) : M A := raise (SystemExit code).

(** [for x in seq: body] *)
Fixpoint for_each {A : Type} (seq : list A) (body : A -> M unit) : M unit :=
  match seq with
  | [] => ret tt
  | x :: r => bind (body x) (fun _ => for_each r body)
  end.

(** [while True: body], where the body yields [Some a] when it breaks out
    with [a] and [None] when it falls through to the next iteration. *)
Fixpoint while_true {A : Type} (fuel : nat) (body : M (option A)) : M A :=
  match fuel with
  | O => fun w => (OutOfFuel, w)
  | S fuel' =>
      bind body (fun r =>
        match r with
        | Some a => ret a
        | None => while_true fuel' body
        end)
  end.

End Effects.

Arguments ret {Obj A} a.
Arguments raise {Obj A} e.
Arguments sys_exit {Obj A} code.
Arguments write {Obj} s.
Arguments print {Obj} s.
Arguments readline {Obj}.
Arguments input {Obj} prompt.
Arguments int {Obj} s.
Arguments get_self {Obj}.
Arguments randbelow {Obj} n.

(** The status the interpreter hands to the operating system when the script
    ends: 0 when it runs to its end, the code of [sys.exit], 1 after a
    traceback for an exception nobody caught (130 for an interrupt). *)
Definition exit_status {A : Type} (r : result A) : option Z :=
  match r with
  | Val _ => Some 0%Z
  | Exc (SystemExit code) => Some code
  | Exc KeyboardInterrupt => Some 130%Z
  | Exc _ => Some 1%Z
  | OutOfFuel => None
  end.

Notation "x <- c ;; k" := (bind c (fun x => k))
  (at level 61, c at next level, right associativity) : py_scope.
Notation "c ;; k" := (bind c (fun _ => k))
  (at level 61, right associativity) : py_scope.

End Py.

Import Py.
Local Open Scope py_scope.
Local Open Scope Z_scope.

(** ** The program *)

(** One entry of [self.questions]: a dictionary with these four keys. *)
Record question_data : Type := {
  question : str;
  options : list str;
  correct : Z;
  explanation : str
}.

(** The quiz object: its only attribute is the question bank. *)
Record NFTProjectQuiz : Type := { questions : list question_data }.

(** [NFTProjectQuiz.__init__] *)
Definition __init__ : NFTProjectQuiz :=
  {| questions := [
    {| question := "When a user searches for patents, which file handles the initial user input?";
       options := ["src/services/patentApi.ts"; "src/pages/PatentSearchPage.tsx"];
       correct := 1;
       explanation := "PatentSearchPage.tsx:33 (handleSearch) handles the user clicking the search button" |};
    {| question := "Which backend route processes patent search requests?";
       options := ["backend/routes/patents.js"; "backend/routes/ipfs.js"];
       correct := 0;
       explanation := "backend/routes/patents.js:62 (GET /api/patents/search) receives and processes search requests" |};
    {| question := "When minting an NFT, which service orchestrates the entire minting process?";
       options := ["src/services/patentPdfService.ts"; "src/services/mintingService.ts"];
       correct := 1;
       explanation := "mintingService.ts:48 (mintPatentNFT) orchestrates the complete minting workflow" |};
    {| question := "Which smart contract function actually mints the NFT on the blockchain?";
       options := ["contracts/PatentNFT.sol:52 (mintPatentNFT)"; "contracts/NFTMarketplace.sol (getAllActiveListings)"];
       correct := 0;
       explanation := "PatentNFT.sol:52 (mintPatentNFT) handles the actual NFT minting on blockchain" |};
    {| question := "Where is the PDF processing for patents handled?";
       options := ["backend/routes/pdf.js"; "src/utils/web3Utils.ts"];
       correct := 0;
       explanation := "backend/routes/pdf.js:8 (POST /api/pdf/process-patent) generates placeholder PDFs" |};
    {| question := "Which file handles IPFS metadata uploads via Pinata?";
       options := ["src/services/patentApi.ts"; "backend/routes/ipfs.js"];
       correct := 1;
       explanation := "backend/routes/ipfs.js:67 (POST /api/pinata/upload-json) uploads metadata to IPFS" |};
    {| question := "When viewing marketplace listings, which service fetches the listings?";
       options := ["src/services/marketplaceService.ts"; "src/services/mintingService.ts"];
       correct := 0;
       explanation := "marketplaceService.ts:75 (getMarketplaceListings) fetches marketplace listings" |};
    {| question := "Which file contains the wallet connection and network verification logic?";
       options := ["src/utils/contracts.ts"; "src/utils/web3Utils.ts"];
       correct := 1;
       explanation := "web3Utils.ts handles MetaMask connection verification and network switching" |};
    {| question := "Where are the smart contract instances created?";
       options := ["src/utils/contracts.ts"; "src/services/patentApi.ts"];
       correct := 0;
       explanation := "contracts.ts (getPatentNFTContract) creates contract instances with signers" |};
    {| question := "Which smart contract checks if a patent already exists before minting?";
       options := ["contracts/NFTMarketplace.sol"; "contracts/PatentNFT.sol"];
       correct := 1;
       explanation := "PatentNFT.sol:97 (patentExists) checks if each patent is already minted" |};
    {| question := "What is the minimum minting fee required by the smart contract?";
       options := ["0.025 ETH"; "0.05 ETH"];
       correct := 1;
       explanation := "PatentNFT.sol:53 verifies payment >= 0.05 ETH for minting" |};
    {| question := "Which page component handles the marketplace UI?";
       options := ["src/pages/MarketplacePage.tsx"; "src/pages/PatentSearchPage.tsx"];
       correct := 0;
       explanation := "MarketplacePage.tsx:47 loads and displays marketplace listings" |};
    {| question := "Where is the routing configuration that maps /marketplace to the marketplace page?";
       options := ["src/App.tsx"; "src/main.tsx"];
       correct := 0;
       explanation := "App.tsx:27 contains the route /marketplace → <MarketplacePage />" |};
    {| question := "Which external API is used to fetch patent data?";
       options := ["Google Patents via SerpAPI"; "USPTO Direct API"];
       correct := 0;
       explanation := "backend/routes/patents.js:80 calls SerpAPI to access Google Patents data" |};
    {| question := "What percentage marketplace fee is collected on sales?";
       options := ["2.5%"; "5%"];
       correct := 0;
       explanation := "The architecture shows 2.5% platform fee in the NFTMarketplace contract" |}
  ] |}.

Definition Quiz (A : Type) : Type := M NFTProjectQuiz A.

(** Lines 106-109 of [run_quiz]. *)
Definition banner : Quiz unit :=
  print "🧠 NFT Patent Marketplace Quiz" ;;
  print (str_mul "=" 50) ;;
  print "Test your knowledge of where features and functionality are located!" ;;
  print ("Choose option 1 or 2 for each question." ++ nl).

(** Lines 114-119: the question and its numbered options. *)
Definition present (q : question_data) : Quiz unit :=
  print ("Question: " ++ question q ++ nl) ;;
  for_each (enumerate (options q) 1)
    (fun io => print (str_of_int (fst io) ++ ". " ++ snd io)) ;;
  print [].

Definition input_prompt : str := "Your answer (1 or 2): ".
Definition guidance : str := "Please enter 1 or 2".
Definition cancelled : str := nl ++ "Quiz cancelled.".

(** [except (ValueError, KeyboardInterrupt)] *)
Definition caught (e : exn) : bool :=
  match e with
  | ValueError | KeyboardInterrupt => true
  | _ => false
  end.

(** Lines 124-129: the body of the [try]. *)
Definition attempt : Quiz (option Z) :=
  line <- input input_prompt ;;
  let answer := strip line in
  if str_in answer ["1"; "2"] then
    n <- int answer ;;
    ret (Some (n - 1))
  else
    print guidance ;;
    ret None.

(** Lines 123-132: one turn of the loop. *)
Definition ask : Quiz (option Z) :=
  try_except attempt caught (print cancelled ;; sys_exit 0).

(** Lines 122-132: the loop.  Every turn that falls through has consumed a
    line, so one turn more than the lines left on the input is enough. *)
Definition get_user_input : Quiz Z :=
  fun w => while_true (S (length (stdin w))) ask w.

Definition correct_marker : str := "✅ CORRECT!".
Definition incorrect_marker : str := "❌ INCORRECT!".

(** Lines 137-144: the verdict and the explanation. *)
Definition check_answer (q : question_data) (user_choice : Z) : Quiz unit :=
  (if user_choice =? correct q then
     print correct_marker
   else
     print incorrect_marker ;;
     correct_answer <- subscript (options q) (correct q) ;;
     print ("The correct answer is: " ++ correct_answer)) ;;
  print (nl ++ "💡 Explanation: " ++ explanation q).

Definition completion : str := nl ++ "Quiz complete! Run again for a different question.".

(** [NFTProjectQuiz.run_quiz] *)
Definition run_quiz : Quiz unit :=
  banner ;;
  this <- get_self ;;
  q <- choice (questions this) ;;
  present q ;;
  user_choice <- get_user_input ;;
  print [] ;;
  check_answer q user_choice ;;
  print completion.

(** The script: build the object and run the quiz on a fresh console. *)
Definition start (quiz : NFTProjectQuiz) (seed : nat) (keyboard : list event) : world NFTProjectQuiz :=
  World quiz seed keyboard [].

Definition main (seed : nat) (keyboard : list event) : result unit * world NFTProjectQuiz :=
  run_quiz (start __init__ seed keyboard).

(** What the user sees of a run: the text on the console and the exit status. *)
Definition console (r : result unit * world NFTProjectQuiz) : str := stdout (snd r).
Definition status (r : result unit * world NFTProjectQuiz) : option Z := exit_status (fst r).

Unset Implicit Arguments.

(** ** Describing a run

    Names for the test of line 125, for the pieces of text a run writes and
    for the ways the input can end; the lemmas below relate them to the
    program. *)

(** The test of line 125, as a predicate of the line that was typed. *)
Definition accepted (line : str) : bool := str_in (strip line) ["1"; "2"].

(** The index that lines 126-127 compute for an accepted line. *)
Definition choice_of (line : str) : Z := if str_eqb (strip line) "1" then 0 else 1.

(** A line that sends the loop to its [else] branch. *)
Definition rejected (line : str) : Prop := accepted line = false.

(** What [n] rejected lines leave on the console. *)
Definition reprompts (n : nat) : str := str_mul (input_prompt ++ guidance ++ nl) n.

(** Every input stream is a run of rejected lines followed by the end of
    input, an interrupt, or an accepted line. *)
Inductive ending : list event -> Prop :=
| ends_eof : ending []
| ends_interrupt rest : ending (Interrupt :: rest)
| ends_accepted good rest : accepted good = true -> ending (Line good :: rest).

(** The invariant of a question record. *)
Definition well_formed (q : question_data) : Prop :=
  length (options q) = 2%nat /\ (correct q = 0 \/ correct q = 1).

(** The same invariant as a test, to run over the bank. *)
Definition well_formedb (q : question_data) : bool :=
  (length (options q) =? 2)%nat && ((correct q =? 0) || (correct q =? 1)).

(** The text of lines 106-109. *)
Definition banner_text : str :=
  "🧠 NFT Patent Marketplace Quiz" ++ nl
  ++ str_mul "=" 50 ++ nl
  ++ "Test your knowledge of where features and functionality are located!" ++ nl
  ++ "Choose option 1 or 2 for each question." ++ nl ++ nl.

(** The text of lines 114-119 for a question with options [o1] and [o2]. *)
Definition question_text (q : question_data) (o1 o2 : str) : str :=
  "Question: " ++ question q ++ nl ++ nl
  ++ "1. " ++ o1 ++ nl
  ++ "2. " ++ o2 ++ nl
  ++ nl.

(** The text of line 144. *)
Definition explanation_text (q : question_data) : str :=
  nl ++ "💡 Explanation: " ++ explanation q ++ nl.

(** The text of lines 137-142, where [o] is the text of the correct option. *)
Definition verdict_text (q : question_data) (user_choice : Z) (o : str) : str :=
  if user_choice =? correct q then correct_marker ++ nl
  else incorrect_marker ++ nl ++ "The correct answer is: " ++ o ++ nl.

(** What a run leaves on the console after [n] rejected lines, by the way
    the input ends; [o] is the text of the correct option. *)
Definition transcript (q : question_data) (o1 o2 o : str) (n : nat) (tail : list event) : str :=
  banner_text ++ question_text q o1 o2 ++ reprompts n ++ input_prompt
  ++ match tail with
     | [] => []
     | Interrupt :: _ => cancelled ++ nl
     | Line good :: _ =>
         nl ++ verdict_text q (choice_of good) o ++ explanation_text q ++ completion ++ nl
     end.

(** How [run_quiz] ends, by the way the input ends. *)
Definition outcome (tail : list event) : result unit :=
  match tail with
  | [] => Exc EOFError
  | Interrupt :: _ => Exc (SystemExit 0)
  | Line _ :: _ => Val tt
  end.

(** A command that leaves the object as it found it, however it ends. *)
Definition keeps_self {Obj A : Type} (c : M Obj A) : Prop :=
  forall w, self (snd (c w)) = self w.

(** The code point [c] does not occur in [s]. *)
Definition lacks (c : N) (s : str) : bool := negb (existsb (N.eqb c) s).

(** The question of the end-to-end scenarios. *)
Definition sample_question : question_data :=
  {| question := "P"; options := ["A"; "B"]; correct := 1; explanation := "E" |}.

(** A text made of whitespace only. *)
Definition spaces (s : str) : bool := forallb isspace s.

(** A text with no whitespace at either end. *)
Definition trimmed (s : str) : Prop :=
  (forall c t, s = c :: t -> isspace c = false)
  /\ (forall t c, s = t ++ [c] -> isspace c = false).

(** No text occurs twice in the list. *)
Fixpoint distinctb (l : list str) : bool :=
  match l with
  | [] => true
  | x :: r => negb (str_in x r) && distinctb r
  end.

(** A command that only adds to the end of the console and only takes
    events from the front of the input. *)
Definition orderly {Obj A : Type} (c : M Obj A) : Prop :=
  forall w,
    (exists written, stdout (snd (c w)) = stdout w ++ written)
    /\ (exists read, stdin w = read ++ stdin (snd (c w))).

(** ** Facts about text *)

Arguments str_mul : simpl never.
Arguments str_of_int : simpl never.

Lemma str_eqb_eq (a b : str) : str_eqb a b = true <-> a = b.
Proof.
  revert b; induction a as [|x a IH]; intros [|y b]; simpl; try (split; congruence).
  rewrite andb_true_iff, N.eqb_eq, IH. split.
  - intros [-> ->]; reflexivity.
  - intros E; injection E; auto.
Qed.

Lemma str_mul_0 (s : str) : str_mul s 0 = [].
Proof. reflexivity. Qed.

Lemma str_mul_S (s : str) (n : nat) : str_mul s (S n) = s ++ str_mul s n.
Proof. reflexivity. Qed.

Lemma str_mul_app (s : str) (n m : nat) : str_mul s (n + m) = str_mul s n ++ str_mul s m.
Proof.
  induction n as [|n IH]; [reflexivity|].
  change (S n + m)%nat with (S (n + m)). rewrite !str_mul_S, IH, app_assoc. reflexivity.
Qed.

Lemma accepted_iff (line : str) :
  accepted line = true <-> strip line = "1" \/ strip line = "2".
Proof.
  unfold accepted, str_in; simpl. rewrite orb_false_r, orb_true_iff, !str_eqb_eq. tauto.
Qed.

Lemma choice_of_range (line : str) : choice_of line = 0 \/ choice_of line = 1.
Proof. unfold choice_of; destruct (str_eqb _ _); auto. Qed.

Lemma int_accepted (line : str) :
  accepted line = true -> int_parse (strip line) = Some (choice_of line + 1).
Proof.
  intros H; apply accepted_iff in H; unfold choice_of.
  destruct H as [-> | ->]; reflexivity.
Qed.

(** ** One turn of the input loop *)

Ltac run :=
  cbv [attempt ask try_except input bind write readline print ret raise
       sys_exit int subscript get_self randbelow caught
       stdin stdout self random_state].

Section Turn.

Variables (quiz : NFTProjectQuiz) (seed : nat) (rest : list event) (out : str).

Lemma attempt_eof :
  attempt (World quiz seed [] out) = (Exc EOFError, World quiz seed [] (out ++ input_prompt)).
Proof. reflexivity. Qed.

Lemma attempt_interrupt :
  attempt (World quiz seed (Interrupt :: rest) out)
  = (Exc KeyboardInterrupt, World quiz seed rest (out ++ input_prompt)).
Proof. reflexivity. Qed.

Lemma attempt_rejected (line : str) :
  accepted line = false ->
  attempt (World quiz seed (Line line :: rest) out)
  = (Val None, World quiz seed rest (out ++ input_prompt ++ guidance ++ nl)).
Proof.
  intros H. run. change (str_in (strip line) _) with (accepted line).
  rewrite H. run. rewrite <- app_assoc. reflexivity.
Qed.

Lemma attempt_accepted (line : str) :
  accepted line = true ->
  attempt (World quiz seed (Line line :: rest) out)
  = (Val (Some (choice_of line)), World quiz seed rest (out ++ input_prompt)).
Proof.
  intros H. run. change (str_in (strip line) _) with (accepted line).
  rewrite H, (int_accepted _ H). do 3 f_equal. lia.
Qed.

Lemma ask_eof :
  ask (World quiz seed [] out) = (Exc EOFError, World quiz seed [] (out ++ input_prompt)).
Proof. reflexivity. Qed.

Lemma ask_interrupt :
  ask (World quiz seed (Interrupt :: rest) out)
  = (Exc (SystemExit 0), World quiz seed rest (out ++ input_prompt ++ cancelled ++ nl)).
Proof.
  unfold ask, try_except. rewrite attempt_interrupt. run.
  rewrite <- app_assoc. reflexivity.
Qed.

Lemma ask_rejected (line : str) :
  accepted line = false ->
  ask (World quiz seed (Line line :: rest) out)
  = (Val None, World quiz seed rest (out ++ input_prompt ++ guidance ++ nl)).
Proof. intros H. unfold ask, try_except. rewrite (attempt_rejected _ H). reflexivity. Qed.

Lemma ask_accepted (line : str) :
  accepted line = true ->
  ask (World quiz seed (Line line :: rest) out)
  = (Val (Some (choice_of line)), World quiz seed rest (out ++ input_prompt)).
Proof. intros H. unfold ask, try_except. rewrite (attempt_accepted _ H). reflexivity. Qed.

End Turn.

(** ** The input loop *)

Lemma while_rejected (bad : list str) :
  Forall rejected bad ->
  forall quiz seed tail out fuel,
    while_true (length bad + fuel) ask (World quiz seed (map Line bad ++ tail) out)
    = while_true fuel ask (World quiz seed tail (out ++ reprompts (length bad))).
Proof.
  induction 1 as [|line bad Hline _ IH]; intros quiz seed tail out fuel.
  - simpl. unfold reprompts, str_mul; simpl. rewrite app_nil_r. reflexivity.
  - cbn [length].
    change (S (length bad) + fuel)%nat with (S (length bad + fuel)).
    change (map Line (line :: bad) ++ tail) with (Line line :: (map Line bad ++ tail)).
    change (while_true (S (length bad + fuel)) ask)
      with (bind ask (fun r : option Z =>
              match r with
              | Some a => ret a
              | None => while_true (length bad + fuel) ask
              end)).
    unfold bind at 1. rewrite (ask_rejected _ _ _ _ _ Hline), IH.
    unfold reprompts. rewrite str_mul_S, <- !app_assoc. reflexivity.
Qed.

Lemma get_user_input_fuel quiz seed (bad : list str) (tail : list event) out :
  Forall rejected bad ->
  get_user_input (World quiz seed (map Line bad ++ tail) out)
  = while_true (S (length tail)) ask (World quiz seed tail (out ++ reprompts (length bad))).
Proof.
  intros H. unfold get_user_input. cbv [stdin].
  rewrite length_app, length_map, <- Nat.add_succ_r. apply (while_rejected _ H).
Qed.

Lemma get_user_input_eof quiz seed (bad : list str) out :
  Forall rejected bad ->
  get_user_input (World quiz seed (map Line bad) out)
  = (Exc EOFError, World quiz seed [] (out ++ reprompts (length bad) ++ input_prompt)).
Proof.
  intros H. rewrite <- (app_nil_r (map Line bad)), (get_user_input_fuel _ _ _ _ _ H).
  cbv [while_true length]. unfold bind. rewrite ask_eof, <- app_assoc. reflexivity.
Qed.

Lemma get_user_input_interrupt quiz seed (bad : list str) (rest : list event) out :
  Forall rejected bad ->
  get_user_input (World quiz seed (map Line bad ++ Interrupt :: rest) out)
  = (Exc (SystemExit 0),
     World quiz seed rest (out ++ reprompts (length bad) ++ input_prompt ++ cancelled ++ nl)).
Proof.
  intros H. rewrite (get_user_input_fuel _ _ _ _ _ H).
  change (while_true (S ?n) ask) with
    (bind ask (fun r : option Z =>
       match r with Some a => ret a | None => while_true n ask end)).
  unfold bind. rewrite ask_interrupt, <- app_assoc. reflexivity.
Qed.

Lemma get_user_input_accepted quiz seed (bad : list str) (good : str) (rest : list event) out :
  Forall rejected bad ->
  accepted good = true ->
  get_user_input (World quiz seed (map Line bad ++ Line good :: rest) out)
  = (Val (choice_of good),
     World quiz seed rest (out ++ reprompts (length bad) ++ input_prompt)).
Proof.
  intros H Hgood. rewrite (get_user_input_fuel _ _ _ _ _ H).
  change (while_true (S ?n) ask) with
    (bind ask (fun r : option Z =>
       match r with Some a => ret a | None => while_true n ask end)).
  unfold bind. rewrite (ask_accepted _ _ _ _ _ Hgood), <- app_assoc. reflexivity.
Qed.

Lemma keyboard_cases (keyboard : list event) :
  exists bad tail,
    keyboard = map Line bad ++ tail /\ Forall rejected bad /\ ending tail.
Proof.
  induction keyboard as [|[line|] keyboard (bad & tail & -> & Hbad & Htail)].
  - exists [], []. repeat split; constructor.
  - destruct (accepted line) eqn:E.
    + exists [], (Line line :: map Line bad ++ tail).
      repeat split; constructor; assumption.
    + exists (line :: bad), tail. repeat split; [constructor|]; assumption.
  - exists [], (Interrupt :: map Line bad ++ tail). repeat split; constructor.
Qed.

(** ** The blocks of [run_quiz] *)

Lemma bind_val {Obj A B : Type} (c : M Obj A) (k : A -> M Obj B) w a w' :
  c w = (Val a, w') -> bind c k w = k a w'.
Proof. intros H. unfold bind. rewrite H. reflexivity. Qed.

Lemma bind_exc {Obj A B : Type} (c : M Obj A) (k : A -> M Obj B) w e w' :
  c w = (Exc e, w') -> bind c k w = (Exc e, w').
Proof. intros H. unfold bind. rewrite H. reflexivity. Qed.

Lemma well_formed_options (q : question_data) :
  well_formed q -> exists o1 o2, options q = [o1; o2].
Proof.
  intros [H _]. destruct (options q) as [|o1 [|o2 [|o3 l]]]; try discriminate.
  exists o1, o2. reflexivity.
Qed.

Lemma well_formed_getitem (q : question_data) :
  well_formed q -> exists o, getitem (options q) (correct q) = Some o /\ In o (options q).
Proof.
  intros H. destruct (well_formed_options q H) as (o1 & o2 & E).
  destruct H as [_ [C | C]]; rewrite E, C.
  - exists o1. split; [reflexivity | left; reflexivity].
  - exists o2. split; [reflexivity | right; left; reflexivity].
Qed.

Section Blocks.

Variables (quiz : NFTProjectQuiz) (seed : nat) (keyboard : list event) (out : str).

Lemma get_self_run :
  get_self (World quiz seed keyboard out) = (Val quiz, World quiz seed keyboard out).
Proof. reflexivity. Qed.

Lemma print_run (s : str) :
  print s (World quiz seed keyboard out) = (Val tt, World quiz seed keyboard (out ++ s ++ nl)).
Proof. reflexivity. Qed.

Lemma banner_run :
  banner (World quiz seed keyboard out) = (Val tt, World quiz seed keyboard (out ++ banner_text)).
Proof.
  cbv [banner]. run. unfold banner_text. rewrite <- !app_assoc. reflexivity.
Qed.

Lemma choice_run {A : Type} (seq : list A) (x : A) :
  nth_error seq (seed mod length seq) = Some x ->
  choice seq (World quiz seed keyboard out)
  = (Val x, World quiz (seed / length seq) keyboard out).
Proof.
  intros H. destruct seq as [|y seq]; [destruct (seed mod _)%nat; discriminate|].
  unfold choice. run. unfold getitem.
  destruct (Z.leb_spec 0 (Z.of_nat (seed mod length (y :: seq)))) as [_|]; [|lia].
  rewrite Nat2Z.id, H. reflexivity.
Qed.

Lemma choice_defined {A : Type} (seq : list A) :
  seq <> [] -> exists x, nth_error seq (seed mod length seq) = Some x.
Proof.
  intros H. destruct (nth_error seq (seed mod length seq)) eqn:E; [eauto|].
  apply nth_error_None in E. destruct seq; [congruence|].
  pose proof (Nat.mod_upper_bound seed (length (a :: seq))) as B.
  simpl in *. lia.
Qed.

Lemma present_run (q : question_data) (o1 o2 : str) :
  options q = [o1; o2] ->
  present q (World quiz seed keyboard out)
  = (Val tt, World quiz seed keyboard (out ++ question_text q o1 o2)).
Proof.
  intros H. unfold present. rewrite H. cbv [for_each enumerate fst snd]. run.
  unfold question_text. rewrite <- !app_assoc. reflexivity.
Qed.

Lemma check_answer_correct (q : question_data) (c : Z) :
  c = correct q ->
  check_answer q c (World quiz seed keyboard out)
  = (Val tt, World quiz seed keyboard (out ++ correct_marker ++ nl ++ explanation_text q)).
Proof.
  intros ->. unfold check_answer. rewrite Z.eqb_refl. run.
  unfold explanation_text. rewrite <- !app_assoc. reflexivity.
Qed.

Lemma check_answer_incorrect (q : question_data) (c : Z) (o : str) :
  c <> correct q ->
  getitem (options q) (correct q) = Some o ->
  check_answer q c (World quiz seed keyboard out)
  = (Val tt, World quiz seed keyboard
       (out ++ incorrect_marker ++ nl
        ++ "The correct answer is: " ++ o ++ nl ++ explanation_text q)).
Proof.
  intros Hc Ho. unfold check_answer. apply Z.eqb_neq in Hc. rewrite Hc. run.
  rewrite Ho. unfold explanation_text. rewrite <- !app_assoc. reflexivity.
Qed.

End Blocks.

(** ** A whole run *)

Lemma check_answer_run quiz seed keyboard out (q : question_data) (c : Z) (o : str) :
  getitem (options q) (correct q) = Some o ->
  check_answer q c (World quiz seed keyboard out)
  = (Val tt, World quiz seed keyboard (out ++ verdict_text q c o ++ explanation_text q)).
Proof.
  intros Ho. unfold verdict_text. destruct (Z.eqb_spec c (correct q)) as [E|E].
  - rewrite (check_answer_correct _ _ _ _ _ _ E), <- !app_assoc. reflexivity.
  - rewrite (check_answer_incorrect _ _ _ _ _ _ _ E Ho), <- !app_assoc. reflexivity.
Qed.

Section Run.

Variables (quiz : NFTProjectQuiz) (seed : nat) (q : question_data) (o1 o2 o : str).

Hypothesis selected : nth_error (questions quiz) (seed mod length (questions quiz)) = Some q.
Hypothesis two_options : options q = [o1; o2].
Hypothesis correct_option : getitem (options q) (correct q) = Some o.

Lemma run_quiz_to_input (keyboard : list event) (out : str) :
  run_quiz (World quiz seed keyboard out)
  = bind get_user_input
      (fun user_choice => print [] ;; check_answer q user_choice ;; print completion)%py
      (World quiz (seed / length (questions quiz)) keyboard
         (out ++ banner_text ++ question_text q o1 o2)).
Proof.
  unfold run_quiz.
  rewrite (bind_val _ _ _ _ _ (banner_run _ _ _ _)).
  rewrite (bind_val _ _ _ _ _ (get_self_run _ _ _ _)).
  rewrite (bind_val _ _ _ _ _ (choice_run _ _ _ _ _ _ selected)).
  rewrite (bind_val _ _ _ _ _ (present_run _ _ _ _ _ _ _ two_options)).
  rewrite <- app_assoc. reflexivity.
Qed.

Lemma run_quiz_run (bad : list str) (tail : list event) (out : str) :
  Forall rejected bad ->
  ending tail ->
  run_quiz (World quiz seed (map Line bad ++ tail) out)
  = (outcome tail,
     World quiz (seed / length (questions quiz)) (tl tail)
       (out ++ transcript q o1 o2 o (length bad) tail)).
Proof.
  intros Hbad Htail. rewrite run_quiz_to_input. unfold transcript.
  destruct Htail as [|rest|good rest Hgood].
  - rewrite (app_nil_r (map Line bad)).
    rewrite (bind_exc _ _ _ _ _ (get_user_input_eof _ _ _ _ Hbad)).
    rewrite app_nil_r, <- !app_assoc. reflexivity.
  - rewrite (bind_exc _ _ _ _ _ (get_user_input_interrupt _ _ _ _ _ Hbad)).
    rewrite <- !app_assoc. reflexivity.
  - rewrite (bind_val _ _ _ _ _ (get_user_input_accepted _ _ _ _ _ _ Hbad Hgood)).
    rewrite (bind_val _ _ _ _ _ (print_run _ _ _ _ _)).
    rewrite (bind_val _ _ _ _ _ (check_answer_run _ _ _ _ _ _ _ correct_option)).
    run. rewrite <- !app_assoc, app_nil_l. reflexivity.
Qed.

End Run.

(** ** Frame: no command of the program writes to the object *)

Section Frame.

Variable Obj : Type.

Lemma keeps_ret {A : Type} (a : A) : keeps_self (ret (Obj:=Obj) a).
Proof. intros w. reflexivity. Qed.

Lemma keeps_raise {A : Type} (e : exn) : keeps_self (raise (Obj:=Obj) (A:=A) e).
Proof. intros w. reflexivity. Qed.

Lemma keeps_bind {A B : Type} (c : M Obj A) (k : A -> M Obj B) :
  keeps_self c -> (forall a, keeps_self (k a)) -> keeps_self (bind c k).
Proof.
  intros Hc Hk w. unfold bind. specialize (Hc w).
  destruct (c w) as [[a|e|] w']; simpl in *; [|assumption|assumption].
  rewrite (Hk a w'). assumption.
Qed.

Lemma keeps_try {A : Type} (body handler : M Obj A) (catches : exn -> bool) :
  keeps_self body -> keeps_self handler -> keeps_self (try_except body catches handler).
Proof.
  intros Hb Hh w. unfold try_except. specialize (Hb w).
  destruct (body w) as [[a|e|] w']; simpl in *; try assumption.
  destruct (catches e); simpl; [|assumption].
  rewrite (Hh w'). assumption.
Qed.

Lemma keeps_if {A : Type} (b : bool) (c1 c2 : M Obj A) :
  keeps_self c1 -> keeps_self c2 -> keeps_self (if b then c1 else c2).
Proof. destruct b; auto. Qed.

Lemma keeps_get_self : keeps_self (get_self (Obj:=Obj)).
Proof. intros w. reflexivity. Qed.

Lemma keeps_write (s : str) : keeps_self (write (Obj:=Obj) s).
Proof. intros w. reflexivity. Qed.

Lemma keeps_print (s : str) : keeps_self (print (Obj:=Obj) s).
Proof. intros w. reflexivity. Qed.

Lemma keeps_readline : keeps_self (readline (Obj:=Obj)).
Proof. intros w. unfold readline. destruct (stdin w) as [|[line|] r]; reflexivity. Qed.

Lemma keeps_input (prompt : str) : keeps_self (input (Obj:=Obj) prompt).
Proof. apply keeps_bind; [apply keeps_write | intros _; apply keeps_readline]. Qed.

Lemma keeps_int (s : str) : keeps_self (int (Obj:=Obj) s).
Proof. intros w. unfold int. destruct (int_parse s); reflexivity. Qed.

Lemma keeps_subscript {A : Type} (seq : list A) (i : Z) : keeps_self (subscript (Obj:=Obj) seq i).
Proof. intros w. unfold subscript. destruct (getitem seq i); reflexivity. Qed.

Lemma keeps_randbelow (n : nat) : keeps_self (randbelow (Obj:=Obj) n).
Proof. intros w. reflexivity. Qed.

Lemma keeps_choice {A : Type} (seq : list A) : keeps_self (choice (Obj:=Obj) seq).
Proof.
  destruct seq as [|x seq]; [apply keeps_raise|].
  apply keeps_bind; [apply keeps_randbelow | intros i; apply keeps_subscript].
Qed.

Lemma keeps_sys_exit {A : Type} (code : Z) : keeps_self (sys_exit (Obj:=Obj) (A:=A) code).
Proof. intros w. reflexivity. Qed.

Lemma keeps_for_each {A : Type} (seq : list A) (body : A -> M Obj unit) :
  (forall x, keeps_self (body x)) -> keeps_self (for_each seq body).
Proof.
  intros Hb. induction seq as [|x seq IH]; [apply keeps_ret|].
  apply keeps_bind; [apply Hb | intros _; exact IH].
Qed.

Lemma keeps_while_true {A : Type} (fuel : nat) (body : M Obj (option A)) :
  keeps_self body -> keeps_self (while_true fuel body).
Proof.
  intros Hb. induction fuel as [|fuel IH]; [intros w; reflexivity|].
  apply keeps_bind; [exact Hb|]. intros [a|]; [apply keeps_ret | exact IH].
Qed.

End Frame.

Create HintDb frame.

#[export] Hint Resolve keeps_ret keeps_raise keeps_bind keeps_try keeps_if keeps_get_self
  keeps_write keeps_print keeps_readline keeps_input keeps_int keeps_subscript
  keeps_randbelow keeps_choice keeps_sys_exit keeps_for_each keeps_while_true : frame.

Lemma keeps_attempt : keeps_self attempt.
Proof. unfold attempt. cbv zeta. auto 10 with frame. Qed.

Lemma keeps_ask : keeps_self ask.
Proof. unfold ask. pose proof keeps_attempt. auto 10 with frame. Qed.

Lemma keeps_get_user_input : keeps_self get_user_input.
Proof. intros w. unfold get_user_input. apply keeps_while_true, keeps_ask. Qed.

Lemma keeps_check_answer (q : question_data) (c : Z) : keeps_self (check_answer q c).
Proof. unfold check_answer. auto 10 with frame. Qed.

Lemma keeps_run_quiz : keeps_self run_quiz.
Proof.
  unfold run_quiz, banner, present.
  pose proof keeps_get_user_input. pose proof keeps_check_answer.
  auto 20 with frame.
Qed.

(** ** Looking for text on the console *)

Lemma lacks_app (c : N) (a b : str) : lacks c (a ++ b) = lacks c a && lacks c b.
Proof. unfold lacks. rewrite existsb_app, negb_orb. reflexivity. Qed.

Lemma lacks_str_mul (c : N) (s : str) (n : nat) :
  lacks c s = true -> lacks c (str_mul s n) = true.
Proof.
  intros H. induction n as [|n IH]; [reflexivity|].
  rewrite str_mul_S, lacks_app, H, IH. reflexivity.
Qed.

Lemma startswith_In (s sub : str) (c : N) :
  startswith s sub = true -> In c sub -> In c s.
Proof.
  revert s; induction sub as [|x sub IH]; intros s H Hc; [destruct Hc|].
  destruct s as [|y s]; [discriminate|]. simpl in H.
  apply andb_true_iff in H as [E H]. apply N.eqb_eq in E. subst y.
  destruct Hc as [-> | Hc]; [left; reflexivity | right; exact (IH s H Hc)].
Qed.

Lemma contains_In (s sub : str) (c : N) :
  contains s sub = true -> In c sub -> In c s.
Proof.
  intros H Hc. induction s as [|y s IH].
  - unfold contains in H. rewrite orb_false_r in H. exact (startswith_In _ _ _ H Hc).
  - change (startswith (y :: s) sub || contains s sub = true) in H.
    apply orb_true_iff in H as [H | H].
    + exact (startswith_In _ _ _ H Hc).
    + right. exact (IH H).
Qed.

Lemma lacks_contains (c : N) (s sub : str) :
  existsb (N.eqb c) sub = true -> lacks c s = true -> contains s sub = false.
Proof.
  intros Hsub Hs. destruct (contains s sub) eqn:E; [|reflexivity].
  apply existsb_exists in Hsub as (x & Hx & Ex). apply N.eqb_eq in Ex. subst x.
  pose proof (contains_In _ _ _ E Hx) as Hin.
  unfold lacks in Hs. apply negb_true_iff in Hs.
  assert (existsb (N.eqb c) s = true) as F
    by (apply existsb_exists; exists c; split; [assumption | apply N.eqb_refl]).
  congruence.
Qed.

(** ** The question bank *)

Lemma well_formedb_ok (q : question_data) : well_formedb q = true -> well_formed q.
Proof.
  unfold well_formedb, well_formed. intros H.
  apply andb_true_iff in H as [L C]. apply Nat.eqb_eq in L.
  apply orb_true_iff in C as [C | C]; apply Z.eqb_eq in C; auto.
Qed.

Lemma bank_well_formed : Forall well_formed (questions __init__).
Proof.
  apply Forall_forall. intros q Hq. apply well_formedb_ok.
  assert (forallb well_formedb (questions __init__) = true) as H by (vm_compute; reflexivity).
  rewrite forallb_forall in H. exact (H q Hq).
Qed.

Lemma bank_length : length (questions __init__) = 15%nat.
Proof. reflexivity. Qed.

Lemma bank_nonempty : questions __init__ <> [].
Proof. intros H. apply (f_equal (@length _)) in H. rewrite bank_length in H. discriminate. Qed.

(** The question a run picks, with its two options and the text of the
    correct one. *)
Lemma bank_selected (seed : nat) :
  exists q o1 o2 o,
    nth_error (questions __init__) (seed mod length (questions __init__)) = Some q
    /\ In q (questions __init__)
    /\ options q = [o1; o2]
    /\ getitem (options q) (correct q) = Some o.
Proof.
  destruct (choice_defined seed (questions __init__) bank_nonempty) as (q & Hq).
  pose proof (nth_error_In _ _ Hq) as Hin.
  pose proof (proj1 (Forall_forall _ _) bank_well_formed q Hin) as Hwf.
  destruct (well_formed_options q Hwf) as (o1 & o2 & Ho).
  destruct (well_formed_getitem q Hwf) as (o & Hg & _).
  exists q, o1, o2, o. auto.
Qed.

Lemma main_run (seed : nat) (bad : list str) (tail : list event) :
  Forall rejected bad ->
  ending tail ->
  exists q o1 o2 o,
    nth_error (questions __init__) (seed mod length (questions __init__)) = Some q
    /\ options q = [o1; o2]
    /\ getitem (options q) (correct q) = Some o
    /\ main seed (map Line bad ++ tail)
       = (outcome tail,
          World __init__ (seed / length (questions __init__)) (tl tail)
            (transcript q o1 o2 o (length bad) tail)).
Proof.
  intros Hbad Htail. destruct (bank_selected seed) as (q & o1 & o2 & o & Hq & _ & Ho & Hg).
  exists q, o1, o2, o. repeat split; try assumption.
  unfold main, start.
  rewrite (run_quiz_run __init__ seed q o1 o2 o Hq Ho Hg bad tail [] Hbad Htail).
  rewrite app_nil_l. reflexivity.
Qed.

(** ** What a run shows depends on the question picked and on the input *)

Lemma rejected_iff (line : str) :
  rejected line <-> strip line <> "1" /\ strip line <> "2".
Proof.
  unfold rejected. pose proof (accepted_iff line) as H.
  destruct (accepted line); split.
  - discriminate.
  - intros [K1 K2]. destruct (proj1 H eq_refl); contradiction.
  - intros _. split; intros E; assert (false = true) as F by (apply H; auto); discriminate F.
  - reflexivity.
Qed.

Lemma Forall_rejected (bad : list str) :
  Forall (fun line => strip line <> "1" /\ strip line <> "2") bad -> Forall rejected bad.
Proof. apply Forall_impl. intros line. apply rejected_iff. Qed.

Lemma main_same_question (seed1 seed2 : nat) (keyboard : list event) :
  nth_error (questions __init__) (seed1 mod length (questions __init__))
  = nth_error (questions __init__) (seed2 mod length (questions __init__)) ->
  console (main seed1 keyboard) = console (main seed2 keyboard)
  /\ status (main seed1 keyboard) = status (main seed2 keyboard).
Proof.
  intros Same. destruct (keyboard_cases keyboard) as (bad & tail & -> & Hbad & Htail).
  destruct (main_run seed1 bad tail Hbad Htail) as (q & o1 & o2 & o & Hq & Ho & Hg & E1).
  destruct (main_run seed2 bad tail Hbad Htail) as (q' & o1' & o2' & o' & Hq' & Ho' & Hg' & E2).
  rewrite Same, Hq' in Hq. injection Hq as ->.
  rewrite Ho' in Ho. injection Ho as -> ->.
  rewrite Hg' in Hg. injection Hg as ->.
  unfold console, status. rewrite E1, E2. cbn [fst snd stdout]. split; reflexivity.
Qed.

Lemma reprompts_opening (n : nat) (after : str) :
  exists rest, reprompts n ++ input_prompt ++ after = input_prompt ++ rest.
Proof.
  destruct n as [|n].
  - exists after. unfold reprompts. rewrite str_mul_0, app_nil_l. reflexivity.
  - exists (guidance ++ nl ++ reprompts n ++ input_prompt ++ after).
    unfold reprompts. rewrite str_mul_S, <- !app_assoc. reflexivity.
Qed.

(** No capital R before the verdict: neither in the banner nor in any
    question or option of the bank. *)
Lemma bank_lacks_R (q : question_data) :
  In q (questions __init__) ->
  lacks 82 (question q) = true /\ forallb (lacks 82) (options q) = true.
Proof.
  intros Hq.
  assert (forallb (fun q => lacks 82 (question q) && forallb (lacks 82) (options q))
            (questions __init__) = true) as H by (vm_compute; reflexivity).
  rewrite forallb_forall in H. apply andb_true_iff. exact (H q Hq).
Qed.

Lemma cancelled_lacks_R (q : question_data) (o1 o2 o : str) (n : nat) (rest : list event) :
  lacks 82 (question q) = true -> lacks 82 o1 = true -> lacks 82 o2 = true ->
  lacks 82 (transcript q o1 o2 o n (Interrupt :: rest)) = true.
Proof.
  intros Hq H1 H2. unfold transcript, question_text, reprompts.
  rewrite !lacks_app, Hq, H1, H2, lacks_str_mul by reflexivity.
  reflexivity.
Qed.

Lemma transcript_eof (q : question_data) (o1 o2 o : str) (n : nat) :
  transcript q o1 o2 o n []
  = banner_text ++ question_text q o1 o2 ++ reprompts n ++ input_prompt.
Proof. unfold transcript. rewrite app_nil_r. reflexivity. Qed.

(** Reaching the end of the input at the first prompt leaves no cancellation
    notice, whichever question was picked. *)
Lemma eof_not_cancelled (q : question_data) (o1 o2 : str) :
  In q (questions __init__) ->
  options q = [o1; o2] ->
  contains (banner_text ++ question_text q o1 o2 ++ input_prompt) "Quiz cancelled."
  = false.
Proof.
  intros Hq Ho.
  assert (forallb (fun q => match options q with
                            | [a; b] =>
                                negb (contains
                                        (banner_text ++ question_text q a b ++ input_prompt)
                                        "Quiz cancelled.")
                            | _ => false
                            end) (questions __init__) = true) as H
    by (vm_compute; reflexivity).
  rewrite forallb_forall in H. specialize (H q Hq). rewrite Ho in H.
  destruct (contains _ _); [discriminate H | reflexivity].
Qed.

(** ** Two runs on a bank of one question *)

Example run_answer_right :
  run_quiz (World {| questions := [sample_question] |} 0 [Line "2"] [])
  = (Val tt,
     World {| questions := [sample_question] |} 0 []
       (banner_text ++ "Question: P" ++ nl ++ nl ++ "1. A" ++ nl ++ "2. B" ++ nl ++ nl
        ++ "Your answer (1 or 2): " ++ nl
        ++ "✅ CORRECT!" ++ nl
        ++ nl ++ "💡 Explanation: E" ++ nl
        ++ nl ++ "Quiz complete! Run again for a different question." ++ nl)).
Proof. vm_compute. reflexivity. Qed.

Example run_answer_wrong :
  run_quiz (World {| questions := [sample_question] |} 0 [Line "1"] [])
  = (Val tt,
     World {| questions := [sample_question] |} 0 []
       (banner_text ++ "Question: P" ++ nl ++ nl ++ "1. A" ++ nl ++ "2. B" ++ nl ++ nl
        ++ "Your answer (1 or 2): " ++ nl
        ++ "❌ INCORRECT!" ++ nl
        ++ "The correct answer is: B" ++ nl
        ++ nl ++ "💡 Explanation: E" ++ nl
        ++ nl ++ "Quiz complete! Run again for a different question." ++ nl)).
Proof. vm_compute. reflexivity. Qed.

(** ** The claims *)

Ltac differ := let H := fresh in intro H; vm_compute in H; discriminate H.

(** C1. The input loop asks again, with the guidance message, for every line
    whose trimmed form is neither "1" nor "2", however many there are, and
    returns index 0 or 1 for the first line whose trimmed form is "1" or "2":
    after [length bad] such lines the console holds that many prompts with
    guidance and one last prompt, and the lines after the accepted one are
    left unread. *)
Theorem C1_collect_answer (quiz : NFTProjectQuiz) (seed : nat) (out : str)
    (bad : list str) (good : str) (rest : list event) :
  Forall (fun line => strip line <> "1" /\ strip line <> "2") bad ->
  strip good = "1" \/ strip good = "2" ->
  exists index,
    get_user_input (World quiz seed (map Line bad ++ Line good :: rest) out)
    = (Val index,
       World quiz seed rest
         (out ++ str_mul (input_prompt ++ guidance ++ nl) (length bad) ++ input_prompt))
    /\ (strip good = "1" -> index = 0)
    /\ (strip good = "2" -> index = 1).
Proof.
  intros Hbad Hgood. exists (choice_of good). split.
  - exact (get_user_input_accepted quiz seed bad good rest out
             (Forall_rejected _ Hbad) (proj2 (accepted_iff good) Hgood)).
  - unfold choice_of. split; intros ->; reflexivity.
Qed.

(** On [["", "3", "x", "2"]] the loop asks again three times and returns
    index 1; on [["1"]] it returns index 0 without asking again. *)
Lemma C1_collect_answer_witness :
  (Forall (fun line => strip line <> "1" /\ strip line <> "2") [[]; "3"; "x"]
   /\ (strip "2" = "1" \/ strip "2" = "2"))
  /\ get_user_input
       (World __init__ 0 [Line []; Line "3"; Line "x"; Line "2"] [])
     = (Val 1, World __init__ 0 []
                 (str_mul (input_prompt ++ guidance ++ nl) 3 ++ input_prompt))
  /\ get_user_input (World __init__ 0 [Line "1"] [])
     = (Val 0, World __init__ 0 [] input_prompt).
Proof.
  assert (Forall (fun line => strip line <> "1" /\ strip line <> "2") [[]; "3"; "x"])
    as Hbad by (repeat constructor; differ).
  split; [split; [exact Hbad | right; reflexivity] | split].
  - destruct (C1_collect_answer __init__ 0 [] [[]; "3"; "x"] "2" [] Hbad
                (or_intror eq_refl)) as (index & E & _ & I).
    rewrite (I eq_refl), app_nil_l in E. exact E.
  - destruct (C1_collect_answer __init__ 0 [] [] "1" [] (Forall_nil _)
                (or_introl eq_refl)) as (index & E & I & _).
    rewrite (I eq_refl), app_nil_l, str_mul_0, app_nil_l in E. exact E.
Defined.

(** C2 (the program does otherwise). When the input ends while the program
    waits for the answer, [input] raises [EOFError], which the handler for
    [ValueError] and [KeyboardInterrupt] lets through: the run ends with that
    exception and exit status 1, and no cancellation notice is printed. *)
Theorem C2_end_of_input_not_handled (seed : nat) :
  fst (main seed []) = Exc EOFError
  /\ status (main seed []) = Some 1
  /\ contains (console (main seed [])) "Quiz cancelled." = false.
Proof.
  destruct (main_run seed [] [] (Forall_nil _) ends_eof) as (q & o1 & o2 & o & Hq & Ho & _ & E).
  change (map Line [] ++ []) with (@nil event) in E.
  unfold status, console. rewrite E. cbn [fst snd stdout outcome exit_status].
  repeat split.
  rewrite transcript_eof. unfold reprompts. rewrite str_mul_0, app_nil_l.
  apply eof_not_cancelled; [exact (nth_error_In _ _ Hq) | exact Ho].
Qed.

(** C3. For a question with two options and a correct index of 0 or 1, and a
    choice of 0 or 1, the verdict starts with the CORRECT marker exactly when
    the choice is the correct index; otherwise it is the INCORRECT marker
    followed by the text of [options[correct]]; the explanation follows in
    both cases. *)
Theorem C3_check_answer (quiz : NFTProjectQuiz) (seed : nat) (keyboard : list event)
    (out : str) (q : question_data) (user_choice : Z) :
  length (options q) = 2%nat ->
  correct q = 0 \/ correct q = 1 ->
  user_choice = 0 \/ user_choice = 1 ->
  exists correct_answer printed,
    getitem (options q) (correct q) = Some correct_answer
    /\ check_answer q user_choice (World quiz seed keyboard out)
       = (Val tt, World quiz seed keyboard (out ++ printed))
    /\ (user_choice = correct q ->
        printed = "✅ CORRECT!" ++ nl ++ nl ++ "💡 Explanation: " ++ explanation q ++ nl)
    /\ (user_choice <> correct q ->
        printed = "❌ INCORRECT!" ++ nl
                  ++ "The correct answer is: " ++ correct_answer ++ nl
                  ++ nl ++ "💡 Explanation: " ++ explanation q ++ nl)
    /\ (startswith printed "✅ CORRECT!" = true <-> user_choice = correct q).
Proof.
  intros Hlen Hcorrect _.
  destruct (well_formed_getitem q (conj Hlen Hcorrect)) as (o & Ho & _).
  exists o. destruct (Z.eq_dec user_choice (correct q)) as [E | E].
  - exists (correct_marker ++ nl ++ explanation_text q).
    split; [exact Ho | split; [exact (check_answer_correct _ _ _ _ _ _ E) | ]].
    split; [reflexivity | split; [contradiction | split; [intros _; exact E | reflexivity]]].
  - exists (incorrect_marker ++ nl ++ "The correct answer is: " ++ o ++ nl ++ explanation_text q).
    split; [exact Ho | split; [exact (check_answer_incorrect _ _ _ _ _ _ _ E Ho) | ]].
    split; [contradiction | split; [reflexivity | split; [discriminate | contradiction]]].
Qed.

Lemma C3_check_answer_witness :
  (length (options sample_question) = 2%nat
   /\ (correct sample_question = 0 \/ correct sample_question = 1))
  /\ check_answer sample_question 1 (World __init__ 0 [] [])
     = (Val tt, World __init__ 0 []
                  ("✅ CORRECT!" ++ nl ++ nl ++ "💡 Explanation: " ++ "E" ++ nl))
  /\ check_answer sample_question 0 (World __init__ 0 [] [])
     = (Val tt, World __init__ 0 []
                  ("❌ INCORRECT!" ++ nl ++ "The correct answer is: " ++ "B" ++ nl
                   ++ nl ++ "💡 Explanation: " ++ "E" ++ nl)).
Proof.
  split; [split; [reflexivity | right; reflexivity] | split].
  - destruct (C3_check_answer __init__ 0 [] [] sample_question 1 eq_refl (or_intror eq_refl)
                (or_intror eq_refl)) as (o & printed & _ & E & P & _).
    rewrite (P eq_refl) in E. exact E.
  - destruct (C3_check_answer __init__ 0 [] [] sample_question 0 eq_refl (or_intror eq_refl)
                (or_introl eq_refl)) as (o & printed & Ho & E & _ & P & _).
    injection Ho as <-. rewrite P in E; [exact E | discriminate].
Defined.

(** C4. An interrupt while the program waits for the answer, after any number
    of rejected lines: the run prints the cancellation notice last, the word
    CORRECT (hence neither marker) appears nowhere on the console, and the
    exit status is 0.  The exit status is 0 as well when an accepted line
    lets the run complete. *)
Theorem C4_cancellation (seed : nat) (bad : list str) (rest : list event) :
  Forall (fun line => strip line <> "1" /\ strip line <> "2") bad ->
  (exists before,
     console (main seed (map Line bad ++ Interrupt :: rest))
     = before ++ nl ++ "Quiz cancelled." ++ nl)
  /\ contains (console (main seed (map Line bad ++ Interrupt :: rest))) "CORRECT" = false
  /\ status (main seed (map Line bad ++ Interrupt :: rest)) = Some 0
  /\ (forall good, strip good = "1" \/ strip good = "2" ->
      status (main seed (map Line bad ++ Line good :: rest)) = Some 0).
Proof.
  intros Hbad. apply Forall_rejected in Hbad.
  destruct (main_run seed bad (Interrupt :: rest) Hbad (ends_interrupt rest))
    as (q & o1 & o2 & o & Hq & Ho & _ & E).
  unfold status, console. rewrite E. cbn [fst snd stdout outcome exit_status].
  split; [|split; [|split; [reflexivity|]]].
  - exists (banner_text ++ question_text q o1 o2 ++ reprompts (length bad) ++ input_prompt).
    unfold transcript, cancelled. rewrite <- !app_assoc. reflexivity.
  - apply (lacks_contains 82); [reflexivity|].
    destruct (bank_lacks_R q (nth_error_In _ _ Hq)) as [Lq Lo].
    rewrite Ho in Lo. cbn [forallb] in Lo.
    apply andb_true_iff in Lo as [L1 Lo]. apply andb_true_iff in Lo as [L2 _].
    exact (cancelled_lacks_R q o1 o2 o (length bad) rest Lq L1 L2).
  - intros good Hgood. apply accepted_iff in Hgood.
    destruct (main_run seed bad (Line good :: rest) Hbad (ends_accepted good rest Hgood))
      as (q' & o1' & o2' & o' & _ & _ & _ & E').
    rewrite E'. reflexivity.
Qed.

Lemma C4_cancellation_witness :
  Forall (fun line => strip line <> "1" /\ strip line <> "2") ["x"; "12"]
  /\ contains (console (main 4 [Line "x"; Line "12"; Interrupt])) "CORRECT" = false
  /\ status (main 4 [Line "x"; Line "12"; Interrupt]) = Some 0
  /\ status (main 4 [Line "x"; Line "12"; Line " 2 "]) = Some 0.
Proof.
  assert (Forall (fun line => strip line <> "1" /\ strip line <> "2") ["x"; "12"]) as Hbad
    by (repeat constructor; differ).
  destruct (C4_cancellation 4 ["x"; "12"] [] Hbad) as (_ & Hno & Hstatus & Hdone).
  split; [exact Hbad | split; [exact Hno | split; [exact Hstatus|]]].
  exact (Hdone " 2 " (or_intror eq_refl)).
Defined.

(** C5. Every question of the bank built by the constructor has exactly two
    options and a correct index of 0 or 1. *)
Theorem C5_bank_invariant :
  Forall (fun q => length (options q) = 2%nat /\ (correct q = 0 \/ correct q = 1))
    (questions __init__).
Proof. exact bank_well_formed. Qed.

(** C6. [random.choice] over a non-empty bank returns a member of the bank
    and touches neither the console nor the object; every member of the bank
    is returned for some state of the random source; a bank of one question
    always yields that question. *)
Theorem C6_selection (bank : list question_data) (quiz : NFTProjectQuiz)
    (keyboard : list event) (out : str) :
  bank <> [] ->
  (forall seed, exists q,
      In q bank
      /\ choice bank (World quiz seed keyboard out)
         = (Val q, World quiz (seed / length bank) keyboard out))
  /\ (forall q, In q bank ->
      exists seed, fst (choice bank (World quiz seed keyboard out)) = Val q)
  /\ (forall q seed, bank = [q] -> fst (choice bank (World quiz seed keyboard out)) = Val q).
Proof.
  intros Hbank. split; [|split].
  - intros seed. destruct (choice_defined seed bank Hbank) as (q & Hq).
    exists q. split; [exact (nth_error_In _ _ Hq) | exact (choice_run _ _ _ _ _ _ Hq)].
  - intros q Hq. destruct (In_nth_error _ _ Hq) as (n & Hn).
    assert (n < length bank)%nat as Hlt by (apply nth_error_Some; congruence).
    exists n. rewrite <- (Nat.mod_small n (length bank) Hlt) in Hn.
    rewrite (choice_run _ _ _ _ _ _ Hn). reflexivity.
  - intros q seed ->. destruct (choice_defined seed [q] Hbank) as (q' & Hq).
    rewrite (choice_run _ _ _ _ _ _ Hq). cbn [fst]. f_equal.
    destruct (nth_error_In _ _ Hq) as [<- | []]. reflexivity.
Qed.

Lemma C6_selection_witness :
  questions __init__ <> []
  /\ (exists q, In q (questions __init__)
                /\ fst (choice (questions __init__) (World __init__ 7 [] [])) = Val q)
  /\ (exists seed,
        fst (choice [sample_question] (World __init__ seed [] [])) = Val sample_question)
  /\ fst (choice [sample_question] (World __init__ 7 [] [])) = Val sample_question.
Proof.
  split; [exact bank_nonempty | split; [|split]].
  - destruct (C6_selection (questions __init__) __init__ [] [] bank_nonempty) as (H & _ & _).
    destruct (H 7%nat) as (q & Hin & E). exists q. rewrite E. split; [exact Hin | reflexivity].
  - assert ([sample_question] <> []) as Hne by discriminate.
    destruct (C6_selection [sample_question] __init__ [] [] Hne) as (_ & H & _).
    exact (H sample_question (or_introl eq_refl)).
  - assert ([sample_question] <> []) as Hne by discriminate.
    destruct (C6_selection [sample_question] __init__ [] [] Hne) as (_ & _ & H).
    exact (H sample_question 7%nat eq_refl).
Defined.

(** C7. Every run starts the console with the banner, the line of the
    selected question and a blank line, the two options numbered 1 and 2, a
    blank line and the prompt for the answer. *)
Theorem C7_console_opening (seed : nat) (keyboard : list event) :
  exists q o1 o2 rest,
    nth_error (questions __init__) (seed mod length (questions __init__)) = Some q
    /\ options q = [o1; o2]
    /\ console (main seed keyboard)
       = "🧠 NFT Patent Marketplace Quiz" ++ nl
         ++ str_mul "=" 50 ++ nl
         ++ "Test your knowledge of where features and functionality are located!" ++ nl
         ++ "Choose option 1 or 2 for each question." ++ nl
         ++ nl
         ++ "Question: " ++ question q ++ nl
         ++ nl
         ++ "1. " ++ o1 ++ nl
         ++ "2. " ++ o2 ++ nl
         ++ nl
         ++ "Your answer (1 or 2): " ++ rest.
Proof.
  destruct (keyboard_cases keyboard) as (bad & tail & -> & Hbad & Htail).
  destruct (main_run seed bad tail Hbad Htail) as (q & o1 & o2 & o & Hq & Ho & _ & E).
  unfold console. rewrite E. cbn [snd stdout]. unfold transcript.
  match goal with
  | |- context [reprompts ?n ++ input_prompt ++ ?t] =>
      destruct (reprompts_opening n t) as (rest & ->)
  end.
  exists q, o1, o2, rest. split; [exact Hq | split; [exact Ho|]].
  unfold banner_text, question_text, input_prompt. rewrite <- !app_assoc. reflexivity.
Qed.

(** C8. A run leaves the quiz object, and so its list of questions, as the
    constructor built it, on every path. *)
Theorem C8_bank_unchanged (quiz : NFTProjectQuiz) (seed : nat) (keyboard : list event)
    (out : str) :
  self (snd (run_quiz (World quiz seed keyboard out))) = quiz
  /\ questions (self (snd (main seed keyboard))) = questions __init__.
Proof.
  split.
  - exact (keeps_run_quiz (World quiz seed keyboard out)).
  - unfold main, start. rewrite (keeps_run_quiz (World __init__ seed keyboard [])). reflexivity.
Qed.

(** C9. [int] is reached only with "1" or "2", which it converts to 1 or 2:
    the body of the [try] never raises [ValueError], the loop ends with a
    choice of 0 or 1 (or with the end of input, or with the exit of the
    cancellation), never out of turns, and the correct index of every
    question of the bank selects one of its options. *)
Theorem C9_conversion_is_safe (w : world NFTProjectQuiz) :
  (forall line, str_in (strip line) ["1"; "2"] = true ->
     int_parse (strip line) = Some 1 \/ int_parse (strip line) = Some 2)
  /\ fst (attempt w) <> Exc ValueError
  /\ match fst (get_user_input w) with
     | Val user_choice => user_choice = 0 \/ user_choice = 1
     | Exc e => e = EOFError \/ e = SystemExit 0
     | OutOfFuel => False
     end
  /\ Forall (fun q => exists o, getitem (options q) (correct q) = Some o /\ In o (options q))
       (questions __init__).
Proof.
  split; [|split; [|split]].
  - intros line H. change (accepted line = true) in H.
    rewrite (int_accepted line H). destruct (choice_of_range line) as [-> | ->]; auto.
  - destruct w as [quiz seed keyboard out]. destruct keyboard as [|[line|] rest].
    + rewrite attempt_eof. discriminate.
    + destruct (accepted line) eqn:A.
      * rewrite (attempt_accepted _ _ _ _ _ A). discriminate.
      * rewrite (attempt_rejected _ _ _ _ _ A). discriminate.
    + rewrite attempt_interrupt. discriminate.
  - destruct w as [quiz seed keyboard out].
    destruct (keyboard_cases keyboard) as (bad & tail & -> & Hbad & Htail).
    destruct Htail as [|rest|good rest Hgood].
    + rewrite (app_nil_r (map Line bad)), (get_user_input_eof _ _ _ _ Hbad). left. reflexivity.
    + rewrite (get_user_input_interrupt _ _ _ _ _ Hbad). right. reflexivity.
    + rewrite (get_user_input_accepted _ _ _ _ _ _ Hbad Hgood). exact (choice_of_range good).
  - apply (Forall_impl _ well_formed_getitem bank_well_formed).
Qed.

Lemma C9_conversion_is_safe_witness :
  str_in (strip " 2 ") ["1"; "2"] = true /\ int_parse (strip " 2 ") = Some 2.
Proof.
  split; [reflexivity|].
  destruct (C9_conversion_is_safe (start __init__ 0 [])) as (H & _).
  destruct (H " 2 " eq_refl) as [E | E]; [discriminate E | exact E].
Defined.

(** C10. What a run shows, its console and its exit status, is determined by
    the question that was drawn and by the input: two runs that draw the
    same question and read the same input agree on both, and every run ends
    with an exit status. *)
Theorem C10_deterministic (seed1 seed2 : nat) (keyboard : list event) :
  nth_error (questions __init__) (seed1 mod length (questions __init__))
  = nth_error (questions __init__) (seed2 mod length (questions __init__)) ->
  console (main seed1 keyboard) = console (main seed2 keyboard)
  /\ status (main seed1 keyboard) = status (main seed2 keyboard)
  /\ exists code, status (main seed1 keyboard) = Some code.
Proof.
  intros Same. destruct (main_same_question seed1 seed2 keyboard Same) as [Hc Hs].
  split; [exact Hc | split; [exact Hs|]].
  destruct (keyboard_cases keyboard) as (bad & tail & -> & Hbad & Htail).
  destruct (main_run seed1 bad tail Hbad Htail) as (q & o1 & o2 & o & _ & _ & _ & E).
  unfold status. rewrite E. cbn [fst].
  destruct Htail; cbn [outcome exit_status]; eauto.
Qed.

Lemma C10_deterministic_witness :
  nth_error (questions __init__) (3 mod length (questions __init__))
  = nth_error (questions __init__) (18 mod length (questions __init__))
  /\ console (main 3 [Line "x"; Line "1"]) = console (main 18 [Line "x"; Line "1"])
  /\ status (main 3 [Line "x"; Line "1"]) = status (main 18 [Line "x"; Line "1"]).
Proof.
  split; [reflexivity|].
  destruct (C10_deterministic 3 18 [Line "x"; Line "1"] eq_refl) as (Hc & Hs & _).
  split; [exact Hc | exact Hs].
Defined.

(** ** Trimming *)

Lemma lstrip_split (s : str) : exists l, s = l ++ lstrip s /\ spaces l = true.
Proof.
  induction s as [|c s (l & E & Hl)]; [exists []; split; reflexivity|].
  cbn [lstrip]. destruct (isspace c) eqn:Hc.
  - exists (c :: l). split; [cbn [app]; f_equal; exact E|].
    unfold spaces in *. cbn [forallb]. rewrite Hc, Hl. reflexivity.
  - exists []. split; reflexivity.
Qed.

Lemma lstrip_head (s : str) (c : N) (t : str) : lstrip s = c :: t -> isspace c = false.
Proof.
  induction s as [|d s IH]; [discriminate|]. cbn [lstrip].
  destruct (isspace d) eqn:Hd; [exact IH|]. intros E. injection E as <- _. exact Hd.
Qed.

Lemma lstrip_spaces (l x : str) : spaces l = true -> lstrip (l ++ x) = lstrip x.
Proof.
  induction l as [|c l IH]; [reflexivity|]. unfold spaces. cbn [forallb app lstrip].
  intros H. apply andb_true_iff in H as [Hc Hl]. rewrite Hc. exact (IH Hl).
Qed.

Lemma lstrip_all_spaces (l : str) : spaces l = true -> lstrip l = [].
Proof. intros H. rewrite <- (app_nil_r l), (lstrip_spaces l [] H). reflexivity. Qed.

Lemma lstrip_fixed (s : str) :
  (forall c t, s = c :: t -> isspace c = false) -> lstrip s = s.
Proof.
  destruct s as [|c t]; [reflexivity|]. intros H. cbn [lstrip].
  rewrite (H c t eq_refl). reflexivity.
Qed.

Lemma spaces_rev (l : str) : spaces (rev l) = spaces l.
Proof.
  unfold spaces. induction l as [|c l IH]; [reflexivity|].
  cbn [rev forallb]. rewrite forallb_app, IH. cbn [forallb].
  rewrite andb_true_r. apply andb_comm.
Qed.

Lemma rstrip_split (s : str) : exists r, s = rstrip s ++ r /\ spaces r = true.
Proof.
  destruct (lstrip_split (rev s)) as (l & E & Hl). exists (rev l). split.
  - unfold rstrip. rewrite <- rev_app_distr, <- E, rev_involutive. reflexivity.
  - rewrite spaces_rev. exact Hl.
Qed.

Lemma rstrip_last (s t : str) (c : N) : rstrip s = t ++ [c] -> isspace c = false.
Proof.
  unfold rstrip. intros E. apply (f_equal (@rev N)) in E.
  rewrite rev_involutive, rev_app_distr in E. exact (lstrip_head _ _ _ E).
Qed.

Lemma rstrip_spaces (x r : str) : spaces r = true -> rstrip (x ++ r) = rstrip x.
Proof.
  intros H. unfold rstrip. rewrite rev_app_distr, lstrip_spaces; [reflexivity|].
  rewrite spaces_rev. exact H.
Qed.

Lemma rstrip_fixed (s : str) :
  (forall t c, s = t ++ [c] -> isspace c = false) -> rstrip s = s.
Proof.
  intros H. unfold rstrip. rewrite lstrip_fixed; [apply rev_involutive|].
  intros c t E. apply (H (rev t) c).
  rewrite <- (rev_involutive s), E. reflexivity.
Qed.

Lemma rstrip_keeps_head (s : str) (c : N) (t : str) :
  (forall d u, s = d :: u -> isspace d = false) ->
  rstrip s = c :: t -> isspace c = false.
Proof.
  intros H E. destruct (rstrip_split s) as (r & Es & _). rewrite E in Es.
  exact (H c (t ++ r) Es).
Qed.

Lemma strip_trimmed (s : str) : trimmed (strip s).
Proof.
  unfold strip. split.
  - intros c t E. apply (rstrip_keeps_head (lstrip s) c t); [|exact E].
    intros d v. apply lstrip_head.
  - intros t c. apply rstrip_last.
Qed.

Lemma strip_padded (l core r : str) :
  spaces l = true -> spaces r = true -> trimmed core -> strip (l ++ core ++ r) = core.
Proof.
  intros Hl Hr [Hhead Hlast]. unfold strip. rewrite (lstrip_spaces l _ Hl).
  destruct core as [|c t].
  - cbn [app]. rewrite (lstrip_all_spaces r Hr). reflexivity.
  - rewrite lstrip_fixed.
    + rewrite (rstrip_spaces _ r Hr). exact (rstrip_fixed _ Hlast).
    + intros d v E. cbn [app] in E. injection E as <- _. exact (Hhead c t eq_refl).
Qed.

(** ** Further properties of the input test *)

(** X1. [strip] removes whitespace from the two ends and nothing else: the
    text is its trimmed form between two runs of whitespace, the trimmed form
    neither starts nor ends with whitespace, and trimming twice changes
    nothing more. *)
Theorem X1_strip_takes_off_the_ends (s : str) :
  (exists l r, s = l ++ strip s ++ r /\ spaces l = true /\ spaces r = true)
  /\ trimmed (strip s)
  /\ strip (strip s) = strip s.
Proof.
  split; [|split; [exact (strip_trimmed s)|]].
  - destruct (lstrip_split s) as (l & El & Hl).
    destruct (rstrip_split (lstrip s)) as (r & Er & Hr).
    exists l, r. split; [|split; assumption].
    unfold strip. rewrite <- Er. exact El.
  - pose proof (strip_padded [] (strip s) [] eq_refl eq_refl (strip_trimmed s)) as E.
    cbn [app] in E. rewrite app_nil_r in E. exact E.
Qed.

(** X2. Whitespace around a text that neither starts nor ends with
    whitespace is all that [strip] takes away. *)
Theorem X2_strip_of_padded (l core r : str) :
  spaces l = true ->
  spaces r = true ->
  (forall c t, core = c :: t -> isspace c = false) ->
  (forall t c, core = t ++ [c] -> isspace c = false) ->
  strip (l ++ core ++ r) = core.
Proof. intros Hl Hr Hhead Hlast. exact (strip_padded l core r Hl Hr (conj Hhead Hlast)). Qed.

Lemma one_code_point_trimmed (d : N) : isspace d = false -> trimmed [d].
Proof.
  intros Hd. split.
  - intros c t E. injection E as <- _. exact Hd.
  - intros t c E. change [d] with ([] ++ [d]) in E.
    apply app_inj_tail in E as [_ <-]. exact Hd.
Qed.

Lemma X2_strip_of_padded_witness :
  (spaces [9; 32]%N = true /\ spaces [32; 13]%N = true)
  /\ strip ([9; 32]%N ++ "2" ++ [32; 13]%N) = "2".
Proof.
  split; [split; reflexivity|].
  apply X2_strip_of_padded; try reflexivity.
  - exact (proj1 (one_code_point_trimmed 50 eq_refl)).
  - exact (proj2 (one_code_point_trimmed 50 eq_refl)).
Defined.

(** X3. The test of line 125 accepts exactly the lines made of "1" or of
    "2" with any whitespace, and nothing else, before and after. *)
Theorem X3_accepted_lines (line : str) :
  str_in (strip line) ["1"; "2"] = true
  <-> exists l r,
        spaces l = true /\ spaces r = true
        /\ (line = l ++ "1" ++ r \/ line = l ++ "2" ++ r).
Proof.
  change (str_in (strip line) ["1"; "2"]) with (accepted line). rewrite accepted_iff. split.
  - intros H. destruct (lstrip_split line) as (l & El & Hl).
    destruct (rstrip_split (lstrip line)) as (r & Er & Hr).
    exists l, r. split; [exact Hl | split; [exact Hr|]].
    fold (strip line) in Er. rewrite Er in El.
    destruct H as [H | H]; rewrite H in El; [left | right]; exact El.
  - intros (l & r & Hl & Hr & [-> | ->]); [left | right];
      apply strip_padded; try assumption; apply one_code_point_trimmed; reflexivity.
Qed.

Lemma X3_accepted_lines_witness :
  str_in (strip ([32; 9]%N ++ "1" ++ [32]%N)) ["1"; "2"] = true
  /\ exists l r, spaces l = true /\ spaces r = true
                 /\ ("2" = l ++ "1" ++ r \/ "2" = l ++ "2" ++ r).
Proof.
  split.
  - apply (proj2 (X3_accepted_lines ([32; 9]%N ++ "1" ++ [32]%N))).
    exists [32; 9]%N, [32]%N. split; [reflexivity | split; [reflexivity | left; reflexivity]].
  - exact (proj1 (X3_accepted_lines "2") eq_refl).
Defined.

(** ** Further properties of a run *)

(** X4. The exit status of the script is 0 or 1, and it is 1 exactly when
    the input is used up by lines that are all rejected. *)
Theorem X4_exit_status (seed : nat) (keyboard : list event) :
  (status (main seed keyboard) = Some 0 \/ status (main seed keyboard) = Some 1)
  /\ (status (main seed keyboard) = Some 1
      <-> Forall (fun ev => exists line,
                    ev = Line line /\ strip line <> "1" /\ strip line <> "2") keyboard).
Proof.
  destruct (keyboard_cases keyboard) as (bad & tail & -> & Hbad & Htail).
  destruct (main_run seed bad tail Hbad Htail) as (q & o1 & o2 & o & _ & _ & _ & E).
  unfold status. rewrite E. cbn [fst].
  assert (Forall (fun ev => exists line,
                    ev = Line line /\ strip line <> "1" /\ strip line <> "2")
            (map Line bad)) as Hlines.
  { apply Forall_map. apply (Forall_impl _ (fun a (H : rejected a) =>
      ex_intro _ a (conj eq_refl (proj1 (rejected_iff a) H))) Hbad). }
  destruct Htail as [|rest|good rest Hgood]; cbn [outcome exit_status].
  - split; [right; reflexivity|]. split; [intros _|reflexivity].
    rewrite app_nil_r. exact Hlines.
  - split; [left; reflexivity|]. split; [discriminate|]. intros H.
    apply Forall_app in H as [_ H]. inversion H as [|ev evs (line & Eline & _) _].
    discriminate Eline.
  - split; [left; reflexivity|]. split; [discriminate|]. intros H.
    apply Forall_app in H as [_ H]. inversion H as [|ev evs (line & Eline & N1 & N2) _].
    injection Eline as <-. apply accepted_iff in Hgood. tauto.
Qed.

Lemma X4_exit_status_witness :
  status (main 2 [Line "x"; Line "3"]) = Some 1
  /\ status (main 2 [Line "x"; Interrupt]) <> Some 1.
Proof.
  split.
  - apply (proj2 (proj2 (X4_exit_status 2 [Line "x"; Line "3"]))).
    repeat constructor; eexists; (split; [reflexivity | split; differ]).
  - intros H. apply (proj1 (proj2 (X4_exit_status 2 [Line "x"; Interrupt]))) in H.
    inversion H as [|a b _ H']. inversion H' as [|c d (line & E & _) _]. discriminate E.
Defined.

Lemma contains_unfold (s sub : str) :
  contains s sub = startswith s sub || match s with [] => false | _ :: r => contains r sub end.
Proof. destruct s; reflexivity. Qed.

Lemma startswith_app (sub x : str) : startswith (sub ++ x) sub = true.
Proof.
  induction sub as [|c sub IH]; [destruct x; reflexivity|].
  cbn [app startswith]. rewrite N.eqb_refl, IH. reflexivity.
Qed.

Lemma contains_here (sub x : str) : contains (sub ++ x) sub = true.
Proof. rewrite contains_unfold, startswith_app. reflexivity. Qed.

Lemma contains_app_r (a b sub : str) : contains b sub = true -> contains (a ++ b) sub = true.
Proof.
  intros H. induction a as [|c a IH]; [exact H|].
  cbn [app]. rewrite contains_unfold, IH. apply orb_true_r.
Qed.

Lemma getitem_In {A : Type} (seq : list A) (i : Z) (x : A) : getitem seq i = Some x -> In x seq.
Proof.
  unfold getitem. destruct (0 <=? i); [apply nth_error_In|].
  destruct (- Z.of_nat (length seq) <=? i); [apply nth_error_In | discriminate].
Qed.

(** Where a code point is missing from every text of the bank, it is missing
    from each question, option and explanation. *)
Lemma bank_lacks (c : N) :
  forallb (fun q => lacks c (question q) && forallb (lacks c) (options q)
                    && lacks c (explanation q)) (questions __init__) = true ->
  forall q, In q (questions __init__) ->
    lacks c (question q) = true
    /\ (forall o, In o (options q) -> lacks c o = true)
    /\ lacks c (explanation q) = true.
Proof.
  intros H q Hq. rewrite forallb_forall in H. specialize (H q Hq).
  apply andb_true_iff in H as [H He]. apply andb_true_iff in H as [Hquestion Ho].
  rewrite forallb_forall in Ho. auto.
Qed.

Ltac lacks_pieces :=
  unfold transcript, question_text, explanation_text, reprompts, completion, cancelled;
  rewrite !lacks_app.

(** X5. A run that gets an accepted line after any number of rejected ones
    completes: it leaves unread whatever follows that line, and its console
    is the banner, the question, one prompt with guidance per rejected line,
    the last prompt, a blank line, the verdict, the explanation and the
    closing notice, in that order and with nothing else. *)
Theorem X5_completed_run (seed : nat) (bad : list str) (good : str) (rest : list event) :
  Forall (fun line => strip line <> "1" /\ strip line <> "2") bad ->
  strip good = "1" \/ strip good = "2" ->
  exists q o1 o2 o,
    nth_error (questions __init__) (seed mod length (questions __init__)) = Some q
    /\ options q = [o1; o2]
    /\ getitem (options q) (correct q) = Some o
    /\ fst (main seed (map Line bad ++ Line good :: rest)) = Val tt
    /\ stdin (snd (main seed (map Line bad ++ Line good :: rest))) = rest
    /\ console (main seed (map Line bad ++ Line good :: rest))
       = banner_text
         ++ "Question: " ++ question q ++ nl ++ nl
         ++ "1. " ++ o1 ++ nl ++ "2. " ++ o2 ++ nl ++ nl
         ++ str_mul (input_prompt ++ guidance ++ nl) (length bad)
         ++ input_prompt ++ nl
         ++ (if (if str_eqb (strip good) "1" then 0 else 1) =? correct q
             then "✅ CORRECT!" ++ nl
             else "❌ INCORRECT!" ++ nl ++ "The correct answer is: " ++ o ++ nl)
         ++ nl ++ "💡 Explanation: " ++ explanation q ++ nl
         ++ nl ++ "Quiz complete! Run again for a different question." ++ nl.
Proof.
  intros Hbad Hgood. apply Forall_rejected in Hbad. apply accepted_iff in Hgood.
  destruct (main_run seed bad (Line good :: rest) Hbad (ends_accepted good rest Hgood))
    as (q & o1 & o2 & o & Hq & Ho & Hg & E).
  exists q, o1, o2, o. unfold console. rewrite E. cbn [fst snd stdin stdout outcome tl].
  repeat (split; [assumption || reflexivity|]).
  unfold transcript, question_text, reprompts, verdict_text, explanation_text, completion,
    choice_of, correct_marker, incorrect_marker.
  rewrite <- !app_assoc. reflexivity.
Qed.

Lemma X5_completed_run_witness :
  (Forall (fun line => strip line <> "1" /\ strip line <> "2") ["yes"]
   /\ (strip "2" = "1" \/ strip "2" = "2"))
  /\ fst (main 5 [Line "yes"; Line "2"; Line "1"]) = Val tt
  /\ stdin (snd (main 5 [Line "yes"; Line "2"; Line "1"])) = [Line "1"].
Proof.
  assert (Forall (fun line => strip line <> "1" /\ strip line <> "2") ["yes"]) as Hbad
    by (repeat constructor; differ).
  split; [split; [exact Hbad | right; reflexivity]|].
  destruct (X5_completed_run 5 ["yes"] "2" [Line "1"] Hbad (or_intror eq_refl))
    as (q & o1 & o2 & o & _ & _ & _ & Hval & Hin & _).
  split; [exact Hval | exact Hin].
Defined.

Lemma bank_lacks_check_mark (q : question_data) :
  In q (questions __init__) ->
  lacks 0x2705 (question q) = true
  /\ (forall o, In o (options q) -> lacks 0x2705 o = true)
  /\ lacks 0x2705 (explanation q) = true.
Proof. apply bank_lacks. vm_compute. reflexivity. Qed.

Lemma bank_lacks_cross_mark (q : question_data) :
  In q (questions __init__) ->
  lacks 0x274C (question q) = true
  /\ (forall o, In o (options q) -> lacks 0x274C o = true)
  /\ lacks 0x274C (explanation q) = true.
Proof. apply bank_lacks. vm_compute. reflexivity. Qed.

Lemma bank_lacks_bulb (q : question_data) :
  In q (questions __init__) ->
  lacks 0x1F4A1 (question q) = true
  /\ (forall o, In o (options q) -> lacks 0x1F4A1 o = true)
  /\ lacks 0x1F4A1 (explanation q) = true.
Proof. apply bank_lacks. vm_compute. reflexivity. Qed.

(** X6. A completed run shows the CORRECT marker exactly when the number
    typed, less one, is the correct index of the question drawn, and the
    INCORRECT marker exactly when it is not. *)
Theorem X6_verdict_shown (seed : nat) (bad : list str) (good : str) (rest : list event) :
  Forall (fun line => strip line <> "1" /\ strip line <> "2") bad ->
  strip good = "1" \/ strip good = "2" ->
  exists q,
    nth_error (questions __init__) (seed mod length (questions __init__)) = Some q
    /\ (contains (console (main seed (map Line bad ++ Line good :: rest))) "✅ CORRECT!" = true
        <-> (if str_eqb (strip good) "1" then 0 else 1) = correct q)
    /\ (contains (console (main seed (map Line bad ++ Line good :: rest))) "❌ INCORRECT!" = true
        <-> (if str_eqb (strip good) "1" then 0 else 1) <> correct q).
Proof.
  intros Hbad Hgood. apply Forall_rejected in Hbad. apply accepted_iff in Hgood.
  destruct (main_run seed bad (Line good :: rest) Hbad (ends_accepted good rest Hgood))
    as (q & o1 & o2 & o & Hq & Ho & Hg & E).
  exists q. split; [exact Hq|]. unfold console. rewrite E. cbn [snd stdout].
  pose proof (nth_error_In _ _ Hq) as Hin.
  assert (In o1 (options q) /\ In o2 (options q)) as [In1 In2]
    by (rewrite Ho; split; [left | right; left]; reflexivity).
  pose proof (getitem_In _ _ _ Hg) as Ino.
  fold (choice_of good). unfold transcript, verdict_text.
  destruct (Z.eqb_spec (choice_of good) (correct q)) as [C | C].
  - assert (contains (banner_text ++ question_text q o1 o2 ++ reprompts (length bad)
                      ++ input_prompt ++ nl ++ (correct_marker ++ nl)
                      ++ explanation_text q ++ completion ++ nl) "✅ CORRECT!" = true) as Yes.
    { do 5 apply contains_app_r. rewrite <- app_assoc. apply contains_here. }
    assert (contains (banner_text ++ question_text q o1 o2 ++ reprompts (length bad)
                      ++ input_prompt ++ nl ++ (correct_marker ++ nl)
                      ++ explanation_text q ++ completion ++ nl) "❌ INCORRECT!" = false) as No.
    { apply (lacks_contains 0x274C); [reflexivity|].
      destruct (bank_lacks_cross_mark q Hin) as (Lq & Lo & Le).
      unfold question_text, explanation_text, reprompts, completion.
      rewrite !lacks_app, Lq, (Lo o1 In1), (Lo o2 In2), Le, lacks_str_mul by reflexivity.
      reflexivity. }
    rewrite Yes, No. split; split; try tauto; discriminate.
  - assert (contains (banner_text ++ question_text q o1 o2 ++ reprompts (length bad)
                      ++ input_prompt ++ nl
                      ++ (incorrect_marker ++ nl ++ "The correct answer is: " ++ o ++ nl)
                      ++ explanation_text q ++ completion ++ nl) "❌ INCORRECT!" = true) as Yes.
    { do 5 apply contains_app_r. rewrite <- app_assoc. apply contains_here. }
    assert (contains (banner_text ++ question_text q o1 o2 ++ reprompts (length bad)
                      ++ input_prompt ++ nl
                      ++ (incorrect_marker ++ nl ++ "The correct answer is: " ++ o ++ nl)
                      ++ explanation_text q ++ completion ++ nl) "✅ CORRECT!" = false) as No.
    { apply (lacks_contains 0x2705); [reflexivity|].
      destruct (bank_lacks_check_mark q Hin) as (Lq & Lo & Le).
      unfold question_text, explanation_text, reprompts, completion.
      rewrite !lacks_app, Lq, (Lo o1 In1), (Lo o2 In2), (Lo o Ino), Le, lacks_str_mul
        by reflexivity.
      reflexivity. }
    rewrite Yes, No. split; split; try tauto; discriminate.
Qed.

Lemma X6_verdict_shown_witness :
  (Forall (fun line => strip line <> "1" /\ strip line <> "2") ["?"]
   /\ (strip "1" = "1" \/ strip "1" = "2"))
  /\ contains (console (main 1 [Line "?"; Line "1"])) "✅ CORRECT!" = true
  /\ contains (console (main 0 [Line "?"; Line "1"])) "❌ INCORRECT!" = true.
Proof.
  assert (Forall (fun line => strip line <> "1" /\ strip line <> "2") ["?"]) as Hbad
    by (repeat constructor; differ).
  split; [split; [exact Hbad | left; reflexivity]|]. split.
  - destruct (X6_verdict_shown 1 ["?"] "1" [] Hbad (or_introl eq_refl)) as (q & Hq & Hyes & _).
    apply (proj2 Hyes). injection Hq as <-. reflexivity.
  - destruct (X6_verdict_shown 0 ["?"] "1" [] Hbad (or_introl eq_refl)) as (q & Hq & _ & Hno).
    apply (proj2 Hno). injection Hq as <-. discriminate.
Defined.

(** X7. A run that ends at the end of the input or with an interrupt shows
    no verdict, no explanation and no closing notice. *)
Theorem X7_unfinished_run_shows_no_answer (seed : nat) (bad : list str) (tail : list event) :
  Forall (fun line => strip line <> "1" /\ strip line <> "2") bad ->
  tail = [] \/ (exists rest, tail = Interrupt :: rest) ->
  contains (console (main seed (map Line bad ++ tail))) "CORRECT" = false
  /\ contains (console (main seed (map Line bad ++ tail))) "💡 Explanation: " = false
  /\ contains (console (main seed (map Line bad ++ tail)))
       "Quiz complete! Run again for a different question." = false.
Proof.
  intros Hbad Htail. apply Forall_rejected in Hbad.
  assert (ending tail) as Hend
    by (destruct Htail as [-> | (rest & ->)]; constructor).
  destruct (main_run seed bad tail Hbad Hend) as (q & o1 & o2 & o & Hq & Ho & _ & E).
  unfold console. rewrite E. cbn [snd stdout].
  pose proof (nth_error_In _ _ Hq) as Hin.
  assert (In o1 (options q) /\ In o2 (options q)) as [In1 In2]
    by (rewrite Ho; split; [left | right; left]; reflexivity).
  destruct (bank_lacks_R q Hin) as [Rq Ro]. rewrite forallb_forall in Ro.
  destruct (bank_lacks_bulb q Hin) as (Bq & Bo & _).
  assert (lacks 82 (transcript q o1 o2 o (length bad) tail) = true) as NoR.
  { destruct Htail as [-> | (rest & ->)]; lacks_pieces;
      rewrite Rq, (Ro o1 In1), (Ro o2 In2), lacks_str_mul by reflexivity; reflexivity. }
  assert (lacks 0x1F4A1 (transcript q o1 o2 o (length bad) tail) = true) as NoBulb.
  { destruct Htail as [-> | (rest & ->)]; lacks_pieces;
      rewrite Bq, (Bo o1 In1), (Bo o2 In2), lacks_str_mul by reflexivity; reflexivity. }
  split; [|split].
  - apply (lacks_contains 82); [reflexivity | exact NoR].
  - apply (lacks_contains 0x1F4A1); [reflexivity | exact NoBulb].
  - apply (lacks_contains 82); [reflexivity | exact NoR].
Qed.

Lemma X7_unfinished_run_shows_no_answer_witness :
  (Forall (fun line => strip line <> "1" /\ strip line <> "2") ["1 2"]
   /\ ([Interrupt; Line "1"] = []
       \/ exists rest, [Interrupt; Line "1"] = Interrupt :: rest))
  /\ contains (console (main 9 [Line "1 2"; Interrupt; Line "1"])) "💡 Explanation: " = false.
Proof.
  assert (Forall (fun line => strip line <> "1" /\ strip line <> "2") ["1 2"]) as Hbad
    by (repeat constructor; differ).
  assert ([Interrupt; Line "1"] = []
          \/ exists rest, [Interrupt; Line "1"] = Interrupt :: rest) as Htail
    by (right; exists [Line "1"]; reflexivity).
  split; [split; [exact Hbad | exact Htail]|].
  exact (proj1 (proj2 (X7_unfinished_run_shows_no_answer 9 ["1 2"] [Interrupt; Line "1"]
                         Hbad Htail))).
Defined.

(** ** Edges: indexing, an empty bank, a record off the invariant *)

Lemma getitem_defined {A : Type} (seq : list A) (i : Z) :
  getitem seq i <> None <-> - Z.of_nat (length seq) <= i < Z.of_nat (length seq).
Proof.
  unfold getitem. destruct (Z.leb_spec 0 i) as [Hi | Hi].
  - rewrite nth_error_Some. lia.
  - destruct (Z.leb_spec (- Z.of_nat (length seq)) i) as [Hl | Hl].
    + rewrite nth_error_Some. lia.
    + split; [congruence | lia].
Qed.

(** X8. Indexing as Python does it: [seq[i]] is defined exactly for
    [-len(seq) <= i < len(seq)], what it yields is an element of the
    sequence, and a negative index counts from the end. *)
Theorem X8_indexing {A : Type} (seq : list A) (i : Z) :
  (getitem seq i <> None <-> - Z.of_nat (length seq) <= i < Z.of_nat (length seq))
  /\ (forall x, getitem seq i = Some x -> In x seq)
  /\ (- Z.of_nat (length seq) <= i < 0 ->
      getitem seq i = getitem seq (i + Z.of_nat (length seq))).
Proof.
  split; [exact (getitem_defined seq i) | split; [intros x; apply getitem_In|]].
  intros [Hl Hi]. unfold getitem.
  destruct (Z.leb_spec 0 i) as [|_]; [lia|].
  destruct (Z.leb_spec (- Z.of_nat (length seq)) i) as [_|]; [|lia].
  destruct (Z.leb_spec 0 (i + Z.of_nat (length seq))) as [_|]; [|lia].
  rewrite Z.add_comm. reflexivity.
Qed.

Lemma X8_indexing_witness :
  (- Z.of_nat (length ["A"; "B"]) <= -1 < 0)
  /\ getitem ["A"; "B"] (-1) = Some "B"
  /\ getitem ["A"; "B"] 2 = None.
Proof.
  split; [cbn [length]; lia|]. split.
  - rewrite (proj2 (proj2 (X8_indexing ["A"; "B"] (-1)))); [reflexivity | cbn [length]; lia].
  - destruct (getitem ["A"; "B"] 2) eqn:E; [|reflexivity].
    assert (getitem ["A"; "B"] 2 <> None) as H by congruence.
    apply (proj1 (proj1 (X8_indexing ["A"; "B"] 2))) in H. cbn [length] in H. lia.
Defined.

(** X9. With an empty bank the run stops at the selection: the banner is
    printed, [random.choice] raises [IndexError], nothing is read from the
    input, no draw is taken from the random source, and the script would end
    with exit status 1. *)
Theorem X9_empty_bank (quiz : NFTProjectQuiz) (seed : nat) (keyboard : list event)
    (out : str) :
  questions quiz = [] ->
  run_quiz (World quiz seed keyboard out)
  = (Exc IndexError, World quiz seed keyboard (out ++ banner_text))
  /\ exit_status (fst (run_quiz (World quiz seed keyboard out))) = Some 1.
Proof.
  intros Hempty.
  assert (run_quiz (World quiz seed keyboard out)
          = (Exc IndexError, World quiz seed keyboard (out ++ banner_text))) as E.
  { unfold run_quiz.
    rewrite (bind_val _ _ _ _ _ (banner_run _ _ _ _)).
    rewrite (bind_val _ _ _ _ _ (get_self_run _ _ _ _)).
    apply bind_exc. rewrite Hempty. reflexivity. }
  split; [exact E | rewrite E; reflexivity].
Qed.

Lemma X9_empty_bank_witness :
  questions {| questions := [] |} = []
  /\ run_quiz (World {| questions := [] |} 3 [Line "1"] [])
     = (Exc IndexError, World {| questions := [] |} 3 [Line "1"] ([] ++ banner_text)).
Proof.
  split; [reflexivity|].
  exact (proj1 (X9_empty_bank {| questions := [] |} 3 [Line "1"] [] eq_refl)).
Defined.

(** X10. The verdict on any record, also one off the invariant.  A choice
    equal to the correct index is judged right without looking at the
    options.  Any other choice prints the INCORRECT marker and then needs
    [options[correct]]: when the correct index is out of the range of the
    options the step raises [IndexError] there, the marker printed and the
    explanation not. *)
Theorem X10_check_answer_off_invariant (quiz : NFTProjectQuiz) (seed : nat)
    (keyboard : list event) (out : str) (q : question_data) (user_choice : Z) :
  (user_choice = correct q ->
   check_answer q user_choice (World quiz seed keyboard out)
   = (Val tt, World quiz seed keyboard
                (out ++ "✅ CORRECT!" ++ nl ++ nl ++ "💡 Explanation: " ++ explanation q ++ nl)))
  /\ (user_choice <> correct q ->
      correct q < - Z.of_nat (length (options q)) \/ Z.of_nat (length (options q)) <= correct q ->
      check_answer q user_choice (World quiz seed keyboard out)
      = (Exc IndexError, World quiz seed keyboard (out ++ "❌ INCORRECT!" ++ nl))).
Proof.
  split.
  - intros E. exact (check_answer_correct quiz seed keyboard out q user_choice E).
  - intros Hc Hrange.
    assert (getitem (options q) (correct q) = None) as Hnone.
    { destruct (getitem (options q) (correct q)) eqn:G; [|reflexivity].
      assert (getitem (options q) (correct q) <> None) as D by congruence.
      apply getitem_defined in D. lia. }
    unfold check_answer. apply Z.eqb_neq in Hc. rewrite Hc. run.
    rewrite Hnone. reflexivity.
Qed.

Lemma X10_check_answer_off_invariant_witness :
  (0 <> 2 /\ (2 < - Z.of_nat (length ["A"; "B"]) \/ Z.of_nat (length ["A"; "B"]) <= 2))
  /\ check_answer {| question := "P"; options := ["A"; "B"]; correct := 2; explanation := "E" |}
       0 (World __init__ 0 [] [])
     = (Exc IndexError, World __init__ 0 [] ([] ++ "❌ INCORRECT!" ++ nl)).
Proof.
  assert (0 <> 2) as Hne by discriminate.
  assert (2 < - Z.of_nat (length ["A"; "B"]) \/ Z.of_nat (length ["A"; "B"]) <= 2) as Hrange
    by (right; cbn [length]; lia).
  split; [split; [exact Hne | exact Hrange]|].
  exact (proj2 (X10_check_answer_off_invariant __init__ 0 [] []
                  {| question := "P"; options := ["A"; "B"]; correct := 2; explanation := "E" |}
                  0) Hne Hrange).
Defined.

(** ** The bank holds no repetition *)

Lemma distinctb_NoDup (l : list str) : distinctb l = true -> NoDup l.
Proof.
  induction l as [|x l IH]; [constructor|]. cbn [distinctb].
  intros H. apply andb_true_iff in H as [Hx Hl]. constructor; [|exact (IH Hl)].
  intros Hin. apply negb_true_iff in Hx.
  assert (str_in x l = true) as F
    by (apply existsb_exists; exists x; split; [exact Hin | apply str_eqb_eq; reflexivity]).
  congruence.
Qed.

(** X11. No two entries of the bank ask the same question, and the two
    options of an entry are never the same text. *)
Theorem X11_bank_without_repetition :
  NoDup (map question (questions __init__))
  /\ Forall (fun q => NoDup (options q)) (questions __init__).
Proof.
  split.
  - apply distinctb_NoDup. vm_compute. reflexivity.
  - apply Forall_forall. intros q Hq. apply distinctb_NoDup.
    assert (forallb (fun q => distinctb (options q)) (questions __init__) = true) as H
      by (vm_compute; reflexivity).
    rewrite forallb_forall in H. exact (H q Hq).
Qed.

(** ** The console only grows, the input is only read from its front *)

Section Orderly.

Variable Obj : Type.

Lemma orderly_still {A : Type} (c : M Obj A) :
  (forall w, snd (c w) = w) -> orderly c.
Proof.
  intros H w. rewrite (H w). split; [exists []; symmetry; apply app_nil_r | exists []; reflexivity].
Qed.

Lemma orderly_ret {A : Type} (a : A) : orderly (ret (Obj:=Obj) a).
Proof. apply orderly_still. reflexivity. Qed.

Lemma orderly_raise {A : Type} (e : exn) : orderly (raise (Obj:=Obj) (A:=A) e).
Proof. apply orderly_still. reflexivity. Qed.

Lemma orderly_sys_exit {A : Type} (code : Z) : orderly (sys_exit (Obj:=Obj) (A:=A) code).
Proof. apply orderly_still. reflexivity. Qed.

Lemma orderly_get_self : orderly (get_self (Obj:=Obj)).
Proof. apply orderly_still. reflexivity. Qed.

Lemma orderly_int (s : str) : orderly (int (Obj:=Obj) s).
Proof. apply orderly_still. intros w. unfold int. destruct (int_parse s); reflexivity. Qed.

Lemma orderly_subscript {A : Type} (seq : list A) (i : Z) : orderly (subscript (Obj:=Obj) seq i).
Proof. apply orderly_still. intros w. unfold subscript. destruct (getitem seq i); reflexivity. Qed.

Lemma orderly_then {A : Type} (w w1 : world Obj) (r : result A * world Obj) :
  ((exists written, stdout w1 = stdout w ++ written)
   /\ (exists read, stdin w = read ++ stdin w1)) ->
  ((exists written, stdout (snd r) = stdout w1 ++ written)
   /\ (exists read, stdin w1 = read ++ stdin (snd r))) ->
  (exists written, stdout (snd r) = stdout w ++ written)
  /\ (exists read, stdin w = read ++ stdin (snd r)).
Proof.
  intros [(a & Ea) (ra & Era)] [(b & Eb) (rb & Erb)]. split.
  - exists (a ++ b). rewrite Eb, Ea, app_assoc. reflexivity.
  - exists (ra ++ rb). rewrite Era, Erb, app_assoc. reflexivity.
Qed.

Lemma orderly_bind {A B : Type} (c : M Obj A) (k : A -> M Obj B) :
  orderly c -> (forall a, orderly (k a)) -> orderly (bind c k).
Proof.
  intros Hc Hk w. unfold bind. specialize (Hc w).
  destruct (c w) as [[a|e|] w1]; cbn [snd] in *; try exact Hc.
  exact (orderly_then w w1 (k a w1) Hc (Hk a w1)).
Qed.

Lemma orderly_try {A : Type} (body handler : M Obj A) (catches : exn -> bool) :
  orderly body -> orderly handler -> orderly (try_except body catches handler).
Proof.
  intros Hb Hh w. unfold try_except. specialize (Hb w).
  destruct (body w) as [[a|e|] w1]; cbn [snd] in *; try exact Hb.
  destruct (catches e); cbn [snd]; [|exact Hb].
  exact (orderly_then w w1 (handler w1) Hb (Hh w1)).
Qed.

Lemma orderly_if {A : Type} (b : bool) (c1 c2 : M Obj A) :
  orderly c1 -> orderly c2 -> orderly (if b then c1 else c2).
Proof. destruct b; auto. Qed.

Lemma orderly_write (s : str) : orderly (write (Obj:=Obj) s).
Proof. intros w. split; [exists s; reflexivity | exists []; reflexivity]. Qed.

Lemma orderly_print (s : str) : orderly (print (Obj:=Obj) s).
Proof. apply orderly_write. Qed.

Lemma orderly_readline : orderly (readline (Obj:=Obj)).
Proof.
  intros w. unfold readline. destruct (stdin w) as [|[line|] r] eqn:E; cbn [snd stdin stdout].
  - rewrite E. split; [exists []; symmetry; apply app_nil_r | exists []; reflexivity].
  - split; [exists []; symmetry; apply app_nil_r | exists [Line line]; reflexivity].
  - split; [exists []; symmetry; apply app_nil_r | exists [Interrupt]; reflexivity].
Qed.

Lemma orderly_input (prompt : str) : orderly (input (Obj:=Obj) prompt).
Proof. apply orderly_bind; [apply orderly_write | intros _; apply orderly_readline]. Qed.

Lemma orderly_randbelow (n : nat) : orderly (randbelow (Obj:=Obj) n).
Proof.
  intros w. split; [exists []; symmetry; apply app_nil_r | exists []; reflexivity].
Qed.

Lemma orderly_choice {A : Type} (seq : list A) : orderly (choice (Obj:=Obj) seq).
Proof.
  destruct seq as [|x seq]; [apply orderly_raise|].
  apply orderly_bind; [apply orderly_randbelow | intros i; apply orderly_subscript].
Qed.

Lemma orderly_for_each {A : Type} (seq : list A) (body : A -> M Obj unit) :
  (forall x, orderly (body x)) -> orderly (for_each seq body).
Proof.
  intros Hb. induction seq as [|x seq IH]; [apply orderly_ret|].
  apply orderly_bind; [apply Hb | intros _; exact IH].
Qed.

Lemma orderly_while_true {A : Type} (fuel : nat) (body : M Obj (option A)) :
  orderly body -> orderly (while_true fuel body).
Proof.
  intros Hb. induction fuel as [|fuel IH]; [apply orderly_still; reflexivity|].
  apply orderly_bind; [exact Hb|]. intros [a|]; [apply orderly_ret | exact IH].
Qed.

End Orderly.

Create HintDb orderly.

#[export] Hint Resolve orderly_ret orderly_raise orderly_sys_exit orderly_get_self orderly_int
  orderly_subscript orderly_bind orderly_try orderly_if orderly_write orderly_print
  orderly_readline orderly_input orderly_randbelow orderly_choice orderly_for_each
  orderly_while_true : orderly.

Lemma orderly_attempt : orderly attempt.
Proof. unfold attempt. cbv zeta. auto 10 with orderly. Qed.

Lemma orderly_ask : orderly ask.
Proof. unfold ask. pose proof orderly_attempt. auto 10 with orderly. Qed.

Lemma orderly_get_user_input : orderly get_user_input.
Proof. intros w. unfold get_user_input. apply orderly_while_true, orderly_ask. Qed.

Lemma orderly_check_answer (q : question_data) (c : Z) : orderly (check_answer q c).
Proof. unfold check_answer. auto 10 with orderly. Qed.

(** X12. Whatever the object, the random source, the input and the console
    at the start, and however the run ends, [run_quiz] only adds text to the
    end of the console and only takes events from the front of the input:
    nothing already shown is changed and no event is skipped or put back. *)
Theorem X12_run_quiz_is_orderly (w : world NFTProjectQuiz) :
  (exists written, stdout (snd (run_quiz w)) = stdout w ++ written)
  /\ (exists read, stdin w = read ++ stdin (snd (run_quiz w))).
Proof.
  revert w. change (orderly run_quiz). unfold run_quiz, banner, present.
  pose proof orderly_get_user_input. pose proof orderly_check_answer.
  auto 20 with orderly.
Qed.
